(** * Analytics dashboard relay: pagination, deduplication and cache

    A shallow embedding of the records endpoint of [server.py]
    ([SimpleCache], [validate_airtable_params], [get_airtable_records]),
    of the table mappings of [config.py] and of the failure mapping of
    the chat relay, followed by the properties proved about them.

    Conventions of the model:
    - Python [str] values are Rocq strings of ASCII characters
      ([Py.isascii]): on such text [len], [str.lower], [str.startswith],
      [in] and [int] are as in [Py]. Characters above 127 are carried
      along unchanged; the properties that depend on how Python treats
      text outside ASCII state [Py.isascii] as a premise.
    - [time.time()] readings and time-to-live values are integers (clock
      ticks); floating-point rounding is outside the model.
    - JSON numbers are integers.
    - Logging is not modelled. *)

From Stdlib Require Import ZArith Lia List Bool Ascii String DecimalString DecimalPos DecimalZ.
From stdpp Require Import base option list strings gmap fin_maps.

Local Open Scope string_scope.
Local Open Scope list_scope.
Local Open Scope Z_scope.

(** ** Python built-ins used by the server *)

Module Py.

(** [s.isascii()] *)
Definition isascii (s : string) : bool :=
  forallb (fun c => (nat_of_ascii c <? 128)%nat) (list_ascii_of_string s).

(** [c.isupper()] for an ASCII character. *)
Definition is_upper (c : ascii) : bool :=
  let n := nat_of_ascii c in (65 <=? n)%nat && (n <=? 90)%nat.

Definition lower_char (c : ascii) : ascii :=
  if is_upper c then ascii_of_nat (nat_of_ascii c + 32) else c.

(** [s.lower()] on ASCII text: the letters [A] to [Z] are mapped, every
    other character is kept, so the length stays. (Outside ASCII
    [str.lower] maps further letters, and can lengthen the text.) *)
Fixpoint lower (s : string) : string :=
  match s with
  | EmptyString => EmptyString
  | String c s' => String (lower_char c) (lower s')
  end.

(** [s.startswith(p)] *)
Definition startswith (s p : string) : bool := String.prefix p s.

(** [pat in s] for two strings: [pat] occurs in [s] as a substring. *)
Fixpoint contains (pat s : string) : bool :=
  String.prefix pat s ||
  match s with
  | EmptyString => false
  | String _ s' => contains pat s'
  end.

(** Truth value of an optional string: [None] and [''] are false. *)
Definition truthy (o : option string) : bool :=
  match o with
  | None | Some EmptyString => false
  | Some _ => true
  end.

(** [o or ''] *)
Definition or_empty (o : option string) : string :=
  match o with
  | Some s => s
  | None => EmptyString
  end.

(** Whitespace stripped by [int()] around the numeral. *)
Definition is_space (c : ascii) : bool :=
  let n := nat_of_ascii c in
  ((9 <=? n)%nat && (n <=? 13)%nat) || (n =? 32)%nat.

Definition is_digit (c : ascii) : bool :=
  let n := nat_of_ascii c in (48 <=? n)%nat && (n <=? 57)%nat.

Definition digit_value (c : ascii) : Z := Z.of_nat (nat_of_ascii c) - 48.

Fixpoint lstrip (s : string) : string :=
  match s with
  | String c s' => if is_space c then lstrip s' else s
  | EmptyString => EmptyString
  end.

Definition strip (s : string) : string :=
  String.rev (lstrip (String.rev (lstrip s))).

(** Decimal digits, single underscores allowed between two digits.
    [after_digit] tells whether the previous character was a digit. *)
Fixpoint digits (s : string) (acc : Z) (after_digit : bool) : option Z :=
  match s with
  | EmptyString => if after_digit then Some acc else None
  | String c s' =>
      if is_digit c then digits s' (10 * acc + digit_value c) true
      else if Ascii.eqb c "_" then
        if after_digit then digits s' acc false else None
      else None
  end.

(** The longest numeral [int] converts under the interpreter's default
    limit ([sys.int_info.default_max_str_digits]); a cap text of at most
    this length is converted whatever the interpreter's version. *)
Definition max_str_digits : nat := 4300.

(** [int(s)] in base ten on ASCII text; [None] stands for [ValueError].
    The limit on the number of digits is not part of the function: the
    properties that depend on it take a text of at most [max_str_digits]
    characters. *)
Definition int (s : string) : option Z :=
  match strip s with
  | String "+" s' => digits s' 0 false
  | String "-" s' => Z.opp <$> digits s' 0 false
  | s' => digits s' 0 false
  end.

(** [str(n)] for an integer. *)
Definition str_int (n : Z) : string := NilZero.string_of_int (Z.to_int n).

(** [f"{v}"] for a value that is an integer or [None]. *)
Definition format_opt_int (o : option Z) : string :=
  match o with
  | Some n => str_int n
  | None => "None"
  end.

End Py.

(** ** [hashlib.md5(...).hexdigest()], after RFC 1321 *)

Module MD5.

Definition mask32 (x : Z) : Z := Z.land x 0xffffffff.

Definition rotl (x s : Z) : Z :=
  mask32 (Z.lor (Z.shiftl x s) (Z.shiftr x (32 - s))).

Definition K : list Z :=
  [ 0xd76aa478; 0xe8c7b756; 0x242070db; 0xc1bdceee;
    0xf57c0faf; 0x4787c62a; 0xa8304613; 0xfd469501;
    0x698098d8; 0x8b44f7af; 0xffff5bb1; 0x895cd7be;
    0x6b901122; 0xfd987193; 0xa679438e; 0x49b40821;
    0xf61e2562; 0xc040b340; 0x265e5a51; 0xe9b6c7aa;
    0xd62f105d; 0x02441453; 0xd8a1e681; 0xe7d3fbc8;
    0x21e1cde6; 0xc33707d6; 0xf4d50d87; 0x455a14ed;
    0xa9e3e905; 0xfcefa3f8; 0x676f02d9; 0x8d2a4c8a;
    0xfffa3942; 0x8771f681; 0x6d9d6122; 0xfde5380c;
    0xa4beea44; 0x4bdecfa9; 0xf6bb4b60; 0xbebfbc70;
    0x289b7ec6; 0xeaa127fa; 0xd4ef3085; 0x04881d05;
    0xd9d4d039; 0xe6db99e5; 0x1fa27cf8; 0xc4ac5665;
    0xf4292244; 0x432aff97; 0xab9423a7; 0xfc93a039;
    0x655b59c3; 0x8f0ccc92; 0xffeff47d; 0x85845dd1;
    0x6fa87e4f; 0xfe2ce6e0; 0xa3014314; 0x4e0811a1;
    0xf7537e82; 0xbd3af235; 0x2ad7d2bb; 0xeb86d391 ].

Definition shifts : list Z :=
  [ 7; 12; 17; 22; 7; 12; 17; 22; 7; 12; 17; 22; 7; 12; 17; 22;
    5; 9; 14; 20; 5; 9; 14; 20; 5; 9; 14; 20; 5; 9; 14; 20;
    4; 11; 16; 23; 4; 11; 16; 23; 4; 11; 16; 23; 4; 11; 16; 23;
    6; 10; 15; 21; 6; 10; 15; 21; 6; 10; 15; 21; 6; 10; 15; 21 ].

Definition bytes_of_string (s : string) : list Z :=
  map (fun c => Z.of_nat (nat_of_ascii c)) (list_ascii_of_string s).

(** [n] bytes of [x], least significant first. *)
Fixpoint le_bytes (n : nat) (x : Z) : list Z :=
  match n with
  | O => []
  | S n' => Z.land x 0xff :: le_bytes n' (Z.shiftr x 8)
  end.

Definition pad (msg : list Z) : list Z :=
  let len := Z.of_nat (length msg) in
  let zeros := Z.to_nat ((55 - len) mod 64) in
  msg ++ 0x80 :: repeat 0 zeros ++ le_bytes 8 (8 * len).

Fixpoint word_of_le (bs : list Z) : Z :=
  match bs with
  | [] => 0
  | b :: bs' => b + 256 * word_of_le bs'
  end.

(** Cut a byte list into [n] little-endian 32-bit words. *)
Fixpoint words (n : nat) (bs : list Z) : list Z :=
  match n with
  | O => []
  | S n' => word_of_le (firstn 4 bs) :: words n' (skipn 4 bs)
  end.

Definition round_fg (i b c d : Z) : Z * Z :=
  if i <? 16 then (Z.lor (Z.land b c) (Z.land (mask32 (Z.lnot b)) d), i)
  else if i <? 32 then
    (Z.lor (Z.land d b) (Z.land (mask32 (Z.lnot d)) c), (5 * i + 1) mod 16)
  else if i <? 48 then (Z.lxor b (Z.lxor c d), (3 * i + 5) mod 16)
  else (Z.lxor c (Z.lor b (mask32 (Z.lnot d))), (7 * i) mod 16).

Definition state : Type := Z * Z * Z * Z.

Definition step (M : list Z) (st : state) (i : nat) : state :=
  let '(a, b, c, d) := st in
  let '(f, g) := round_fg (Z.of_nat i) b c d in
  let f' := mask32 (f + a + nth i K 0 + nth (Z.to_nat g) M 0) in
  (d, mask32 (b + rotl f' (nth i shifts 0)), b, c).

Definition block (st : state) (M : list Z) : state :=
  let '(a0, b0, c0, d0) := st in
  let '(a, b, c, d) := fold_left (step M) (seq 0 64) st in
  (mask32 (a0 + a), mask32 (b0 + b), mask32 (c0 + c), mask32 (d0 + d)).

Fixpoint blocks (n : nat) (bs : list Z) (st : state) : state :=
  match n with
  | O => st
  | S n' => blocks n' (skipn 64 bs) (block st (words 16 (firstn 64 bs)))
  end.

Definition digest (msg : list Z) : list Z :=
  let p := pad msg in
  let '(a, b, c, d) :=
    blocks (length p / 64) p (0x67452301, 0xefcdab89, 0x98badcfe, 0x10325476) in
  le_bytes 4 a ++ le_bytes 4 b ++ le_bytes 4 c ++ le_bytes 4 d.

Definition hex_digit (n : Z) : ascii :=
  if n <? 10 then ascii_of_nat (Z.to_nat (48 + n))
  else ascii_of_nat (Z.to_nat (87 + n)).

Fixpoint hex (bs : list Z) : string :=
  match bs with
  | [] => EmptyString
  | b :: bs' => String (hex_digit (b / 16)) (String (hex_digit (b mod 16)) (hex bs'))
  end.

(** [hashlib.md5(s.encode()).hexdigest()] *)
Definition hexdigest (s : string) : string := hex (digest (bytes_of_string s)).

End MD5.

Arguments MD5.hexdigest : simpl never.

(** ** [config.py] *)

Module Config.

Record table_info := {
  id : string;
  name : string;
  date_field : string;
  sort_direction : string
}.

(** The result of [get_table_config]: the table's entry extended with
    ['type'] and ['is_legacy']. *)
Record table_config := {
  info : table_info;
  type : string;
  is_legacy : bool
}.

(** The class attributes of [Config] and its subclasses that the server
    reads, and [MAX_PAGINATION_PAGES], which it does not. *)
Record t := {
  CLAUDE_API_TIMEOUT : Z;
  AIRTABLE_API_TIMEOUT : Z;
  MAX_RECORDS_PER_REQUEST : Z;
  MAX_TOTAL_RECORDS : Z;
  MAX_PAGINATION_PAGES : Z
}.

Definition FRESH_TABLES : list (string * table_info) :=
  [ ("ghl", {| id := "tblcdFVUC3zJrbmNf"; name := "Fresh GHL";
               date_field := "Date Created"; sort_direction := "desc" |});
    ("pos", {| id := "tblHyyZHUsTdEb3BL"; name := "Fresh POS";
               date_field := "Created"; sort_direction := "desc" |});
    ("meta_ads", {| id := "tbl7mWcQBNA2TQAjc"; name := "Fresh Meta Ads";
                    date_field := "Reporting ends"; sort_direction := "desc" |});
    ("meta_ads_summary", {| id := "tblIQXVSwtwq1P4W7"; name := "Meta Ads Summary";
                            date_field := "Reporting ends"; sort_direction := "desc" |});
    ("meta_ads_simplified", {| id := "tblA6ABFBTURfyZx9"; name := "Meta Ads Simplified";
                               date_field := "period"; sort_direction := "desc" |});
    ("google_ads", {| id := "tblRBXdh6L6zm9CZn"; name := "Fresh Google Ads";
                      date_field := "Date"; sort_direction := "desc" |}) ].

Definition LEGACY_TABLES : list (string * table_info) :=
  [ ("ghl", {| id := "tblv400k6UM7FE0OU"; name := "Legacy GHL";
               date_field := "Date Created"; sort_direction := "desc" |});
    ("pos", {| id := "tbloHzN9XdQLc8xvS"; name := "Legacy POS";
               date_field := "Created"; sort_direction := "desc" |});
    ("meta_ads", {| id := "tbldOjx6thhdAgaUB"; name := "Legacy Meta Ads Full";
                    date_field := "Reporting starts"; sort_direction := "desc" |});
    ("google_ads", {| id := "tbl4QdehJluhBSSVh"; name := "Legacy Google Ads";
                      date_field := "Date"; sort_direction := "desc" |}) ].

(** The first entry of [tables] whose ['id'] is [table_id]. *)
Fixpoint find_table (tables : list (string * table_info)) (legacy : bool)
    (table_id : string) : option table_config :=
  match tables with
  | [] => None
  | (table_type, config) :: rest =>
      if String.eqb (id config) table_id
      then Some {| info := config; type := table_type; is_legacy := legacy |}
      else find_table rest legacy table_id
  end.

Definition get_table_config (table_id : string) : option table_config :=
  match find_table FRESH_TABLES false table_id with
  | Some c => Some c
  | None => find_table LEGACY_TABLES true table_id
  end.

(** [get_all_table_ids]: the identifiers of the fresh tables, then those
    of the legacy tables. *)
Definition get_all_table_ids : list string :=
  let fresh_ids := map (fun entry => id (snd entry)) FRESH_TABLES in
  let legacy_ids := map (fun entry => id (snd entry)) LEGACY_TABLES in
  fresh_ids ++ legacy_ids.

Definition Base : t := {|
  CLAUDE_API_TIMEOUT := 30;
  AIRTABLE_API_TIMEOUT := 15;
  MAX_RECORDS_PER_REQUEST := 100;
  MAX_TOTAL_RECORDS := 10000;
  MAX_PAGINATION_PAGES := 50
|}.

Definition DevelopmentConfig : t := Base.

Definition ProductionConfig : t := {|
  CLAUDE_API_TIMEOUT := 30;
  AIRTABLE_API_TIMEOUT := 15;
  MAX_RECORDS_PER_REQUEST := 100;
  MAX_TOTAL_RECORDS := 5000;
  MAX_PAGINATION_PAGES := 50
|}.

Definition TestConfig : t := {|
  CLAUDE_API_TIMEOUT := 30;
  AIRTABLE_API_TIMEOUT := 15;
  MAX_RECORDS_PER_REQUEST := 100;
  MAX_TOTAL_RECORDS := 100;
  MAX_PAGINATION_PAGES := 5
|}.

(** [flask_env] is the value of the environment variable [FLASK_ENV],
    if set. *)
Definition get_config (flask_env : option string) : t :=
  let env := Py.lower (default "production" flask_env) in
  if String.eqb env "development" then DevelopmentConfig
  else if String.eqb env "testing" then TestConfig
  else ProductionConfig.

End Config.

(** ** Exceptions and results *)

Inductive exn :=
| KeyError
| TypeError
| JSONDecodeError.

(** A computation that returns a value or raises an exception. *)
Inductive outcome (A : Type) :=
| Return (a : A)
| Raise (e : exn).
Arguments Return {A} a.
Arguments Raise {A} e.

Definition bind {A B : Type} (m : outcome A) (k : A -> outcome B) : outcome B :=
  match m with
  | Return a => k a
  | Raise e => Raise e
  end.

Notation "'let!' x ':=' m 'in' k" := (bind m (fun x => k))
  (at level 10, x name, m at level 100, k at level 200).

(** ** [validate_airtable_params] *)

(** The entries of the list [errors]. *)
Inductive validation_error :=
| BaseIdRequired                     (* "baseId is required" *)
| BaseIdMalformed                    (* "baseId must start with 'app' and be 17 characters long" *)
| TableIdRequired                    (* "tableId is required" *)
| TableIdMalformed                   (* "tableId must start with 'tbl' and be 17 characters long" *)
| MaxRecordsNotPositive              (* "maxRecords must be a positive integer" *)
| MaxRecordsTooLarge (limit : Z)     (* "maxRecords cannot exceed {limit:,} (configured limit)" *)
| MaxRecordsNotInteger               (* "maxRecords must be a valid integer" *)
| DangerousPattern (pattern : string) (* "Filter formula contains potentially dangerous pattern: {pattern}" *)
| FilterTooLong.                     (* "Filter formula is too long (max 1000 characters)" *)

Record validated_params := {
  base_id : option string;
  table_id : option string;
  max_records : option Z;
  filter_formula : option string
}.

Definition dangerous_patterns : list string :=
  ["javascript:"; "eval("; "script>"; "DROP TABLE"; "DELETE FROM"].

Definition check_identifier (prefix : string) (required malformed : validation_error)
    (v : option string) : list validation_error :=
  match v with
  | None | Some EmptyString => [required]
  | Some s =>
      if negb (Py.startswith s prefix) || negb (String.length s =? 17)%nat
      then [malformed] else []
  end.

(** The cap read from [max_records_str] and the errors it gives rise to. *)
Definition check_max_records (AppConfig : Config.t) (max_records_str : option string)
    : option Z * list validation_error :=
  if Py.truthy max_records_str then
    match Py.int (Py.or_empty max_records_str) with
    | Some n =>
        (Some n,
         if n <=? 0 then [MaxRecordsNotPositive]
         else if n >? Config.MAX_TOTAL_RECORDS AppConfig
              then [MaxRecordsTooLarge (Config.MAX_TOTAL_RECORDS AppConfig)]
              else [])
    | None => (None, [MaxRecordsNotInteger])
    end
  else (None, []).

Definition check_filter (filter_formula : option string) : list validation_error :=
  if Py.truthy filter_formula then
    let f := Py.or_empty filter_formula in
    let filter_lower := Py.lower f in
    flat_map (fun pattern =>
                if Py.contains pattern filter_lower then [DangerousPattern pattern] else [])
             dangerous_patterns
    ++ (if (1000 <? String.length f)%nat then [FilterTooLong] else [])
  else [].

(** Returns the errors (joined with ["; "] by the source) when there are
    any, the validated parameters otherwise. *)
Definition validate_airtable_params (AppConfig : Config.t)
    (base_id table_id max_records_str filter_formula : option string)
    : list validation_error + validated_params :=
  let '(max_records, cap_errors) := check_max_records AppConfig max_records_str in
  let errors :=
    check_identifier "app" BaseIdRequired BaseIdMalformed base_id
    ++ check_identifier "tbl" TableIdRequired TableIdMalformed table_id
    ++ cap_errors
    ++ check_filter filter_formula in
  match errors with
  | [] => inr {| base_id := base_id; table_id := table_id;
                 max_records := max_records; filter_formula := filter_formula |}
  | _ => inl errors
  end.

(** ** JSON values, upstream records and flattened records *)

(** A JSON value as Python reads it. Arrays and objects are kept as their
    text: the server only ever tests them for hashability. *)
Inductive value :=
| VNull
| VBool (b : bool)
| VInt (n : Z)
| VStr (s : string)
| VCompound (json : string).

(** What a hashable value is inside a Python [set]: [True] and [1] (and
    [False] and [0]) are the same member. *)
Inductive hkey :=
| KNone
| KInt (n : Z)
| KStr (s : string).

#[global] Instance value_eq_dec : EqDecision value.
Proof. solve_decision. Defined.

#[global] Instance hkey_eq_dec : EqDecision hkey.
Proof. solve_decision. Defined.

Definition hkey_to_sum (k : hkey) : unit + (Z + string) :=
  match k with
  | KNone => inl ()
  | KInt n => inr (inl n)
  | KStr s => inr (inr s)
  end.

Definition hkey_of_sum (x : unit + (Z + string)) : hkey :=
  match x with
  | inl _ => KNone
  | inr (inl n) => KInt n
  | inr (inr s) => KStr s
  end.

Lemma hkey_of_to_sum (k : hkey) : hkey_of_sum (hkey_to_sum k) = k.
Proof. by destruct k. Qed.

#[global] Instance hkey_countable : Countable hkey :=
  inj_countable' hkey_to_sum hkey_of_sum hkey_of_to_sum.

(** [hash(v)] followed by the equality test of the set; lists and
    dictionaries are unhashable. *)
Definition hash_key (v : value) : outcome hkey :=
  match v with
  | VNull => Return KNone
  | VBool b => Return (KInt (Z.b2z b))
  | VInt n => Return (KInt n)
  | VStr s => Return (KStr s)
  | VCompound _ => Raise TypeError
  end.

(** One element of the upstream's ['records']. A part is [None] when
    the key is missing, or when ['fields'] is not an object: the source
    then raises [TypeError] where [item] raises [KeyError], and the
    handler answers both alike. *)
Record upstream_record := {
  r_id : option value;
  r_createdTime : option value;
  r_fields : option (gmap string value)
}.

(** [record[key]] *)
Definition item {A : Type} (part : option A) : outcome A :=
  match part with
  | Some v => Return v
  | None => Raise KeyError
  end.

(** [{'id': record['id'], 'createdTime': record['createdTime'],
     **record['fields']}]: the keys of ['fields'] are written last. *)
Definition flatten (record : upstream_record) : outcome (gmap string value) :=
  let! i := item (r_id record) in
  let! c := item (r_createdTime record) in
  let! fields := item (r_fields record) in
  Return (fields ∪ <["createdTime" := c]> (<["id" := i]> ∅)).

(** [record.get('id')] *)
Definition record_id (record : gmap string value) : value :=
  default VNull (record !! "id").

(** ** The upstream services *)

Inductive request_exception :=
| Timeout
| ConnectionError
| OtherRequestException.

(** An HTTP response: its status, the text of the [HTTPError] that
    [raise_for_status] builds from it, and what [response.json()] gives
    ([None] when decoding raises, or when the body is not of the shape
    the caller reads, which raises as well). *)
Record http_response (B : Type) := {
  status_code : Z;
  error_text : string;
  json : option B
}.
Arguments status_code {B} _.
Arguments error_text {B} _.
Arguments json {B} _.

(** The outcome of [requests.get] or [requests.post]; [text] is [str(e)]. *)
Inductive reply (B : Type) :=
| Fails (e : request_exception) (text : string)
| Responds (r : http_response B).
Arguments Fails {B} e text.
Arguments Responds {B} r.

(** The decoded body of a page of the tabular upstream:
    [data.get('records', [])] and [data.get('offset')], the cursor being
    a string, or [None] when it is absent or null. *)
Record page := {
  p_records : list upstream_record;
  p_offset : option string
}.

(** The query parameters of one page request. *)
Record page_params := {
  pp_offset : option string;
  pp_maxRecords : option Z;
  pp_filterByFormula : option string;
  pp_sort : option (string * string)
}.

(** The tabular upstream: its reply to the [n]-th page request (from 0)
    of an aggregation, given the parameters sent. *)
Definition upstream : Type := nat -> page_params -> reply page.

(** [response.raise_for_status()]: client and server errors raise. *)
Definition raise_for_status {B : Type} (r : http_response B) : bool :=
  (400 <=? status_code r) && (status_code r <? 600).

(** ** [SimpleCache] *)

Module SimpleCache.

Record t (A : Type) := {
  _cache : gmap string A;
  _timestamps : gmap string Z
}.
Arguments _cache {A} _.
Arguments _timestamps {A} _.

Definition init {A : Type} : t A := {| _cache := ∅; _timestamps := ∅ |}.

(** [f"{v}"] for a value that is a string or [None]. *)
Definition format_opt_str (o : option string) : string :=
  match o with
  | Some s => s
  | None => "None"
  end.

Definition key_data (base_id table_id filter_formula : option string)
    (max_records : option Z) : string :=
  (format_opt_str base_id ++ ":" ++ format_opt_str table_id ++ ":"
   ++ (if Py.truthy filter_formula then Py.or_empty filter_formula else "")
   ++ ":" ++ Py.format_opt_int max_records)%string.

Definition _generate_key (base_id table_id filter_formula : option string)
    (max_records : option Z) : string :=
  MD5.hexdigest (key_data base_id table_id filter_formula max_records).

(** [now] is the reading of [time.time()]. Returns the cached data, or
    [None], and the cache after the lookup. *)
Definition get {A : Type} (self : t A) (now : Z)
    (base_id table_id filter_formula : option string) (max_records : option Z)
    (ttl_seconds : Z) : outcome (option A) * t A :=
  let cache_key := _generate_key base_id table_id filter_formula max_records in
  match _cache self !! cache_key with
  | None => (Return None, self)
  | Some data =>
      let cache_time := default 0 (_timestamps self !! cache_key) in
      if now - cache_time >? ttl_seconds then
        let self' := {| _cache := delete cache_key (_cache self);
                        _timestamps := _timestamps self |} in
        match _timestamps self !! cache_key with
        | None => (Raise KeyError, self')
        | Some _ =>
            (Return None,
             {| _cache := delete cache_key (_cache self);
                _timestamps := delete cache_key (_timestamps self) |})
        end
      else (Return (Some data), self)
  end.

Definition set {A : Type} (self : t A) (now : Z)
    (base_id table_id : option string) (data : A)
    (filter_formula : option string) (max_records : option Z) : t A :=
  let cache_key := _generate_key base_id table_id filter_formula max_records in
  {| _cache := <[cache_key := data]> (_cache self);
     _timestamps := <[cache_key := now]> (_timestamps self) |}.

Definition clear {A : Type} (self : t A) : t A := init.

End SimpleCache.

(** ** Responses of the endpoints *)

Module Response.

Record info := {
  total_records : Z;
  pages_fetched : Z;
  server_side_pagination : bool;
  duplicates_removed : Z
}.

(** [response_data]; ['offset'] is always [None]. *)
Record data := {
  records : list (gmap string value);
  pagination_info : info
}.

(** The text under ["error"]. *)
Inductive error :=
| ValidationError (errors : list validation_error) (* "Validation error: ..." *)
| DataServiceError (text : string)                (* "Data service error: {str(e)}" *)
| Unexpected (e : exn).                           (* str(e) *)

Inductive body :=
| Error (message : error)
| Data (d : data).

(** A JSON body and an HTTP status. *)
Definition t : Type := body * Z.

Definition body_records (b : body) : list (gmap string value) :=
  match b with
  | Error _ => []
  | Data d => records d
  end.

End Response.

(** ** The pagination loop of [get_airtable_records] *)

Module Loop.

(** The variables of the loop, and the page requests sent so far
    (oldest first). *)
Record state := {
  all_records : list (gmap string value);
  offset : option string;
  page_count : nat;
  requests : list page_params
}.

Definition init : state :=
  {| all_records := []; offset := None; page_count := 0; requests := [] |}.

(** How one pass through the body of the loop ends. *)
Inductive control :=
| Continue (st : state)
| Break (st : state)
| ReturnResponse (r : Response.t) (st : state)
| Raises (e : exn) (st : state).

(** How the loop ends. *)
Inductive result :=
| Exited (st : state)
| Responded (r : Response.t) (st : state)
| Failed (e : exn) (st : state).

Definition control_state (c : control) : state :=
  match c with
  | Continue st | Break st | ReturnResponse _ st | Raises _ st => st
  end.

Definition final (r : result) : state :=
  match r with
  | Exited st | Responded _ st | Failed _ st => st
  end.

Definition max_pages : nat := 100.

(** [for record in page_records: all_records.append(flattened_record)] *)
Fixpoint append_flattened (all_records : list (gmap string value))
    (page_records : list upstream_record) : outcome (list (gmap string value)) :=
  match page_records with
  | [] => Return all_records
  | record :: rest =>
      let! flattened_record := flatten record in
      append_flattened (all_records ++ [flattened_record]) rest
  end.

Section Body.

Variable params : validated_params.
Variable up : upstream.

(** The sort directive of the page request. *)
Definition sort_params : option (string * string) :=
  match table_id params with
  | Some t =>
      match Config.get_table_config t with
      | Some table_config =>
          Some (Config.date_field (Config.info table_config),
                Config.sort_direction (Config.info table_config))
      | None => None
      end
  | None => None
  end.

(** [page_params] once the cap has been looked at: [None] when the
    loop breaks because no record remains to be asked for. *)
Definition build_page_params (st : state) : option page_params :=
  let with_limit (limit : option Z) :=
    {| pp_offset := if Py.truthy (offset st) then offset st else None;
       pp_maxRecords := limit;
       pp_filterByFormula :=
         if Py.truthy (filter_formula params) then filter_formula params else None;
       pp_sort := sort_params |} in
  match max_records params with
  | Some cap =>
      let remaining_records := cap - Z.of_nat (length (all_records st)) in
      if remaining_records <=? 0 then None
      else Some (with_limit (Some (Z.min 100 remaining_records)))
  | None => Some (with_limit None)
  end.

(** One pass through the body of the [while]. When flattening raises in
    the middle of a page, the records appended before it are not kept in
    the state: the handler's locals are lost with the exception. *)
Definition iteration (st : state) : control :=
  let st := {| all_records := all_records st; offset := offset st;
               page_count := S (page_count st); requests := requests st |} in
  match build_page_params st with
  | None => Break st
  | Some page_params =>
      let sent := {| all_records := all_records st; offset := offset st;
                     page_count := page_count st;
                     requests := requests st ++ [page_params] |} in
      match up (length (requests st)) page_params with
      | Fails e text =>
          ReturnResponse (Response.Error (Response.DataServiceError text), 502) sent
      | Responds response =>
          if raise_for_status response
          then ReturnResponse
                 (Response.Error (Response.DataServiceError (error_text response)), 502)
                 sent
          else
            match json response with
            | None => Raises JSONDecodeError sent
            | Some data =>
                match append_flattened (all_records st) (p_records data) with
                | Raise e => Raises e sent
                | Return all_records' =>
                    let st' := {| all_records := all_records';
                                  offset := p_offset data;
                                  page_count := page_count st;
                                  requests := requests sent |} in
                    if Py.truthy (p_offset data) then Continue st' else Break st'
                end
            end
      end
  end.

(** [while page_count < max_pages: ...]; [None] when [fuel] passes do
    not suffice. *)
Fixpoint while_loop (fuel : nat) (st : state) : option result :=
  if (page_count st <? max_pages)%nat then
    match fuel with
    | O => None
    | S fuel' =>
        match iteration st with
        | Continue st' => while_loop fuel' st'
        | Break st' => Some (Exited st')
        | ReturnResponse r st' => Some (Responded r st')
        | Raises e st' => Some (Failed e st')
        end
    end
  else Some (Exited st).

(** The loop run from its initial state; [max_pages] passes always
    suffice (see [while_loop_total]). *)
Definition run : result :=
  match while_loop max_pages init with
  | Some r => r
  | None => Exited init
  end.

End Body.

End Loop.

(** ** Final deduplication *)

Module Dedup.

(** The variables [seen_ids] and [unique_records]. *)
Definition state : Type := gset hkey * list (gmap string value).

(** One pass through the body of the [for]. *)
Definition step (st : state) (record : gmap string value) : outcome state :=
  let '(seen_ids, unique_records) := st in
  let! record_id := hash_key (record_id record) in
  if decide (record_id ∉ seen_ids)
  then Return ({[record_id]} ∪ seen_ids, unique_records ++ [record])
  else Return st.

Fixpoint for_each (all_records : list (gmap string value)) (st : state) : outcome state :=
  match all_records with
  | [] => Return st
  | record :: rest =>
      let! st' := step st record in
      for_each rest st'
  end.

Definition unique_records (all_records : list (gmap string value))
    : outcome (list (gmap string value)) :=
  let! st := for_each all_records (∅, []) in
  Return (snd st).

End Dedup.

(** ** [get_airtable_records] *)

(** The query string of the request, as [request.args.get] reads it. *)
Record request_args := {
  baseId : option string;
  tableId : option string;
  maxRecords : option string;
  filterByFormula : option string;
  sort : option string;
  offset : option string
}.

(** What handling one request leaves behind: the response, the cache,
    and the page requests sent to the upstream (oldest first). *)
Record handled := {
  response : Response.t;
  cache : SimpleCache.t Response.data;
  upstream_requests : list page_params
}.

(** [response_data], from the accumulated records, their deduplication
    and the page count. *)
Definition build_response (all_records unique_records : list (gmap string value))
    (page_count : nat) : Response.data :=
  let original_count := length all_records in
  let all_records :=
    if negb (length unique_records =? original_count)%nat
    then unique_records else all_records in
  {| Response.records := all_records;
     Response.pagination_info :=
       {| Response.total_records := Z.of_nat (length all_records);
          Response.pages_fetched := Z.of_nat page_count;
          Response.server_side_pagination := true;
          Response.duplicates_removed :=
            Z.of_nat original_count - Z.of_nat (length all_records) |} |}.

(** The handler of [GET /api/airtable/records]. [t_lookup] and [t_store]
    are the readings of [time.time()] inside [cache.get] and [cache.set];
    [cache] is the global cache when the request arrives. An exception
    raised anywhere is turned into a 500 by the outer [except]. A cached
    payload is a non-empty dictionary, so [if cached_data] holds whenever
    the lookup returns one. *)
Definition get_airtable_records (AppConfig : Config.t) (args : request_args)
    (up : upstream) (t_lookup t_store : Z) (cache : SimpleCache.t Response.data)
    : handled :=
  match validate_airtable_params AppConfig
          (baseId args) (tableId args) (maxRecords args) (filterByFormula args) with
  | inl errors =>
      {| response := (Response.Error (Response.ValidationError errors), 400);
         cache := cache; upstream_requests := [] |}
  | inr params =>
      let cache_ttl := if Py.truthy (filter_formula params) then 60 else 300 in
      match SimpleCache.get cache t_lookup (base_id params) (table_id params)
              (filter_formula params) (max_records params) cache_ttl with
      | (Raise e, cache) =>
          {| response := (Response.Error (Response.Unexpected e), 500);
             cache := cache; upstream_requests := [] |}
      | (Return (Some cached_data), cache) =>
          {| response := (Response.Data cached_data, 200);
             cache := cache; upstream_requests := [] |}
      | (Return None, cache) =>
          match Loop.run params up with
          | Loop.Responded r st =>
              {| response := r; cache := cache;
                 upstream_requests := Loop.requests st |}
          | Loop.Failed e st =>
              {| response := (Response.Error (Response.Unexpected e), 500);
                 cache := cache; upstream_requests := Loop.requests st |}
          | Loop.Exited st =>
              match Dedup.unique_records (Loop.all_records st) with
              | Raise e =>
                  {| response := (Response.Error (Response.Unexpected e), 500);
                     cache := cache; upstream_requests := Loop.requests st |}
              | Return unique_records =>
                  let response_data :=
                    build_response (Loop.all_records st) unique_records
                                   (Loop.page_count st) in
                  {| response := (Response.Data response_data, 200);
                     cache := SimpleCache.set cache t_store (base_id params)
                                (table_id params) response_data
                                (filter_formula params) (max_records params);
                     upstream_requests := Loop.requests st |}
              end
          end
      end
  end.

(** ** The upstream call of [chat] *)

Module Chat.

(** The text under ["error"]. *)
Inductive error :=
| TimedOut                  (* "Request timed out. Please try again." *)
| CannotConnect             (* "Unable to connect to AI service. Please try again." *)
| RequestFailed             (* "AI service request failed. Please try again." *)
| UpstreamStatus (code : Z) (* "Claude API returned status code {code}" *)
| Unexpected (e : exn).     (* str(e) *)

Inductive body (B : Type) :=
| Error (message : error)
| Relayed (b : B).
Arguments Error {B} message.
Arguments Relayed {B} b.

(** One element of ['messages'], a JSON object. *)
Definition message : Type := gmap string value.

(** One pass of the loop that sorts the messages: a message whose role is
    ['system'] replaces [system_message] by its content ([None], here
    [VNull], when it has none), any other message is appended to
    [filtered_messages]. *)
Definition split_step (st : value * list message) (m : message)
    : value * list message :=
  let '(system_message, filtered_messages) := st in
  if decide (m !! "role" = Some (VStr "system"))
  then (default VNull (m !! "content"), filtered_messages)
  else (system_message, filtered_messages ++ [m]).

(** [system_message] and [filtered_messages] after the loop over
    [messages]. *)
Definition split_messages (messages : list message) : value * list message :=
  fold_left split_step messages (VNull, []).

(** What [chat] answers once the request to the language-model service
    has been prepared, from the outcome of [requests.post]. *)
Definition forward {B : Type} (r : reply B) : body B * Z :=
  match r with
  | Fails Timeout _ => (Error TimedOut, 504)
  | Fails ConnectionError _ => (Error CannotConnect, 503)
  | Fails OtherRequestException _ => (Error RequestFailed, 502)
  | Responds response =>
      if negb (status_code response =? 200)
      then (Error (UpstreamStatus (status_code response)), status_code response)
      else match json response with
           | Some b => (Relayed b, 200)
           | None => (Error (Unexpected JSONDecodeError), 500)
           end
  end.

End Chat.

(** ** Vocabulary of the properties *)

#[global] Instance exn_eq_dec : EqDecision exn.
Proof. solve_decision. Defined.

#[global] Instance outcome_eq_dec {A : Type} `{EqDecision A} : EqDecision (outcome A).
Proof. solve_decision. Defined.

Module DedupSpec.

(** The identifier of a record as the set [seen_ids] sees it. *)
Definition key (record : gmap string value) : outcome hkey :=
  hash_key (record_id record).

Definition same_key (r x : gmap string value) : bool :=
  bool_decide (key x = key r).

(** The records of [all_records] whose identifier is neither in
    [seen_ids] nor carried by an earlier record, in order. *)
Fixpoint first_occurrences (seen_ids : gset hkey)
    (all_records : list (gmap string value)) : list (gmap string value) :=
  match all_records with
  | [] => []
  | record :: rest =>
      match key record with
      | Return k =>
          if decide (k ∉ seen_ids)
          then record :: first_occurrences ({[k]} ∪ seen_ids) rest
          else first_occurrences seen_ids rest
      | Raise _ => []
      end
  end.

(** [out] is [all_records] deduplicated by identifier, first-seen
    records kept, order preserved: [out] is a subsequence of
    [all_records], no two of its records carry the same identifier,
    every identifier of [all_records] is carried by one of them, and
    each of them is the first record of [all_records] with its
    identifier. *)
Definition first_seen (all_records out : list (gmap string value)) : Prop :=
  out `sublist_of` all_records /\
  NoDup (record_id <$> out) /\
  NoDup (key <$> out) /\
  (forall r, r ∈ all_records -> exists r', r' ∈ out /\ key r' = key r) /\
  (forall r, r ∈ out -> find (same_key r) all_records = Some r).

End DedupSpec.

(** The reply of the upstream makes the page request raise a
    [RequestException]: a transport failure, or a 4xx or 5xx status. *)
Definition failed (r : reply page) : Prop :=
  match r with
  | Fails _ _ => True
  | Responds response => raise_for_status response = true
  end.

(** The upstream returns no more records on a page than the request
    asked for with a positive [maxRecords]. *)
Definition honours_limit (up : upstream) : Prop :=
  forall n pp response data limit,
    up n pp = Responds response -> json response = Some data ->
    pp_maxRecords pp = Some limit -> 0 < limit ->
    Z.of_nat (length (p_records data)) <= limit.

(** Every payload in the cache is free of duplicate identifiers. *)
Definition cache_deduplicated (c : SimpleCache.t Response.data) : Prop :=
  forall k d, SimpleCache._cache c !! k = Some d ->
              NoDup (record_id <$> Response.records d).

(** The list [all_records] when the pagination loop ends. *)
Definition accumulated (params : validated_params) (up : upstream)
    : list (gmap string value) :=
  Loop.all_records (Loop.final (Loop.run params up)).

(** The time-to-live the handler passes to [cache.get]. *)
Definition cache_ttl (params : validated_params) : Z :=
  if Py.truthy (filter_formula params) then 60 else 300.

(** The lookup the handler starts with. *)
Definition cache_lookup (cache0 : SimpleCache.t Response.data) (t_lookup : Z)
    (params : validated_params) : outcome (option Response.data) * SimpleCache.t Response.data :=
  SimpleCache.get cache0 t_lookup (base_id params) (table_id params)
    (filter_formula params) (max_records params) (cache_ttl params).

(** The key under which the handler caches the response. *)
Definition request_key (params : validated_params) : string :=
  SimpleCache._generate_key (base_id params) (table_id params)
    (filter_formula params) (max_records params).

(** ** Sample data *)

Definition sample_args : request_args :=
  {| baseId := Some "appAAAAAAAAAAAAAA"; tableId := Some "tblcdFVUC3zJrbmNf";
     maxRecords := None; filterByFormula := None; sort := None; offset := None |}.

Definition with_cap (cap : string) (args : request_args) : request_args :=
  {| baseId := baseId args; tableId := tableId args; maxRecords := Some cap;
     filterByFormula := filterByFormula args; sort := sort args; offset := offset args |}.

(** A well-formed upstream record whose identifier is ["rec" ++ n]. *)
Definition sample_record (n : nat) : upstream_record :=
  {| r_id := Some (VStr ("rec" ++ Py.str_int (Z.of_nat n)));
     r_createdTime := Some (VStr "2024-01-01T00:00:00.000Z");
     r_fields := Some {["Name" := VInt (Z.of_nat n)]} |}.

Definition ok_page (records : list upstream_record) (cursor : option string)
    : reply page :=
  Responds {| status_code := 200; error_text := "";
              json := Some {| p_records := records; p_offset := cursor |} |}.

(** Three pages of 100, 100 and 42 records with distinct identifiers. *)
Definition three_pages : upstream := fun n _ =>
  match n with
  | 0%nat => ok_page (map sample_record (seq 0 100)) (Some "itr1")
  | 1%nat => ok_page (map sample_record (seq 100 100)) (Some "itr2")
  | _ => ok_page (map sample_record (seq 200 42)) None
  end.

Definition sample_payload : Response.data := build_response [] [] 1.

(** The response data of a handled request ([sample_payload] when the
    response is an error). *)
Definition data_of (h : handled) : Response.data :=
  match fst (response h) with
  | Response.Data d => d
  | Response.Error _ => sample_payload
  end.

(** An upstream that ignores [maxRecords]: two records on its only page. *)
Definition two_records : upstream := fun _ _ =>
  ok_page [sample_record 1; sample_record 2] None.

(** An upstream that returns as many records as asked for, at most two. *)
Definition obedient : upstream := fun n pp =>
  match pp_maxRecords pp with
  | Some limit => ok_page (map sample_record (seq (2 * n) (Z.to_nat (Z.min limit 2)))) (Some "next")
  | None => ok_page [sample_record n] None
  end.

(** An upstream whose every page carries one record and a cursor. *)
Definition endless : upstream := fun n _ => ok_page [sample_record n] (Some "more").

(** An upstream that answers the first page and times out on the second. *)
Definition times_out_on_page_2 : upstream := fun n _ =>
  match n with
  | 0%nat => ok_page (map sample_record (seq 0 100)) (Some "itr1")
  | _ => Fails Timeout "Read timed out."
  end.

(** An upstream that cannot be reached. *)
Definition unreachable : upstream := fun _ _ =>
  Fails ConnectionError "Connection refused".

(** An upstream that answers 404. *)
Definition not_found : upstream := fun _ _ =>
  Responds {| status_code := 404; error_text := "404 Client Error: Not Found";
              json := None |}.

(** Two pages that share one identifier. *)
Definition duplicate_pages : upstream := fun n _ =>
  match n with
  | 0%nat => ok_page [sample_record 1; sample_record 2] (Some "itr1")
  | _ => ok_page [sample_record 2; sample_record 3] None
  end.

(** An upstream whose first page is empty but carries a cursor. *)
Definition empty_then_data : upstream := fun n _ =>
  match n with
  | 0%nat => ok_page [] (Some "itr0")
  | _ => ok_page [sample_record n] None
  end.

Definition sample_params : validated_params :=
  {| base_id := baseId sample_args; table_id := tableId sample_args;
     max_records := None; filter_formula := None |}.

(** Two upstream records with different identifiers and the same ['id']
    field. *)
Definition shadowed_ids : upstream := fun _ _ =>
  ok_page
    [ {| r_id := Some (VStr "recA"); r_createdTime := Some (VStr "2024-01-01");
         r_fields := Some {["id" := VInt 7; "Name" := VStr "first"]} |};
      {| r_id := Some (VStr "recB"); r_createdTime := Some (VStr "2024-01-02");
         r_fields := Some {["id" := VInt 7; "Name" := VStr "second"]} |} ]
    None.

(** An upstream whose only record has an array for its ['id'] field. *)
Definition array_id : upstream := fun _ _ =>
  ok_page [ {| r_id := Some (VStr "recA"); r_createdTime := Some (VStr "2024-01-01");
               r_fields := Some {["id" := VCompound "[1, 2]"]} |} ] None.

(** ** Vocabulary of the further properties *)

(** The errors [validate_airtable_params] reports, none when it accepts. *)
Definition reported (AppConfig : Config.t) (b t m f : option string)
    : list validation_error :=
  match validate_airtable_params AppConfig b t m f with
  | inl errors => errors
  | inr _ => []
  end.

(** The rule behind the error [e] is violated by the parameters. *)
Definition violated (AppConfig : Config.t) (b t m f : option string)
    (e : validation_error) : Prop :=
  match e with
  | BaseIdRequired => Py.truthy b = false
  | BaseIdMalformed =>
      Py.truthy b = true /\
      (Py.startswith (Py.or_empty b) "app" = false \/
       String.length (Py.or_empty b) <> 17%nat)
  | TableIdRequired => Py.truthy t = false
  | TableIdMalformed =>
      Py.truthy t = true /\
      (Py.startswith (Py.or_empty t) "tbl" = false \/
       String.length (Py.or_empty t) <> 17%nat)
  | MaxRecordsNotPositive =>
      Py.truthy m = true /\ exists n, Py.int (Py.or_empty m) = Some n /\ n <= 0
  | MaxRecordsTooLarge limit =>
      limit = Config.MAX_TOTAL_RECORDS AppConfig /\ Py.truthy m = true /\
      exists n, Py.int (Py.or_empty m) = Some n /\ 0 < n /\ limit < n
  | MaxRecordsNotInteger =>
      Py.truthy m = true /\ Py.int (Py.or_empty m) = None
  | DangerousPattern pattern =>
      Py.truthy f = true /\ pattern ∈ dangerous_patterns /\
      Py.contains pattern (Py.lower (Py.or_empty f)) = true
  | FilterTooLong =>
      Py.truthy f = true /\ (1000 < String.length (Py.or_empty f))%nat
  end.

(** A request parameter that is absent or ASCII text. *)
Definition ascii_param (v : option string) : Prop :=
  match v with
  | Some s => Py.isascii s = true
  | None => True
  end.

(** A cap that is absent or a text short enough for [int] to convert
    it under any digit limit of the interpreter. *)
Definition short_numeral (v : option string) : Prop :=
  match v with
  | Some s => (String.length s <= Py.max_str_digits)%nat
  | None => True
  end.

(** An identifier of the shape the validator asks for. *)
Definition well_formed_id (prefix : string) (v : option string) : Prop :=
  exists s, v = Some s /\ Py.startswith s prefix = true /\ String.length s = 17%nat.

(** The payloads and the timestamps of the cache have the same keys. *)
Definition cache_synced {A : Type} (c : SimpleCache.t A) : Prop :=
  forall k, is_Some (SimpleCache._cache c !! k)
            <-> is_Some (SimpleCache._timestamps c !! k).

(** The character [c] occurs in [s]. *)
Definition occurs (c : ascii) (s : string) : Prop := In c (list_ascii_of_string s).

(** The page request carries the request's filter and the sort directive
    of its table, and a limit that fits the cap. *)
Definition well_shaped (params : validated_params) (pp : page_params) : Prop :=
  pp_filterByFormula pp
  = (if Py.truthy (filter_formula params) then filter_formula params else None) /\
  pp_sort pp = Loop.sort_params params /\
  match max_records params with
  | None => pp_maxRecords pp = None
  | Some cap => exists limit, pp_maxRecords pp = Some limit /\
                              1 <= limit <= 100 /\ limit <= cap
  end.

(** The cursor [cursor] is the one due at position [i] of the log of
    page requests: none at the start, and otherwise the cursor of the
    page that answered the request before. *)
Definition follows (up : upstream) (log : list page_params) (i : nat)
    (cursor : option string) : Prop :=
  match i with
  | O => cursor = None
  | S j =>
      exists previous response data,
        log !! j = Some previous /\
        up j previous = Responds response /\
        raise_for_status response = false /\
        json response = Some data /\
        Py.truthy (p_offset data) = true /\
        cursor = p_offset data
  end.

(** Every page request of the log is well shaped and carries the cursor
    due at its position. *)
Definition requests_ok (params : validated_params) (up : upstream)
    (log : list page_params) : Prop :=
  forall i pp, log !! i = Some pp ->
               well_shaped params pp /\ follows up log i (pp_offset pp).

(** The upstream answers every page request with a page that can be
    flattened and that carries a cursor. *)
Definition always_more (up : upstream) : Prop :=
  forall n pp, exists response data,
    up n pp = Responds response /\
    raise_for_status response = false /\
    json response = Some data /\
    Py.truthy (p_offset data) = true /\
    Forall (fun record => exists flat, flatten record = Return flat) (p_records data).

(** The records of the page a reply carries, none when the request
    failed. *)
Definition page_records_of (r : reply page) : list upstream_record :=
  match r with
  | Fails _ _ => []
  | Responds response =>
      if raise_for_status response then []
      else match json response with
           | Some data => p_records data
           | None => []
           end
  end.

(** The records of the pages that answered the requests of the log, in
    the order received. *)
Definition received (up : upstream) (log : list page_params) : list upstream_record :=
  concat (imap (fun i pp => page_records_of (up i pp)) log).

(** The message has the role ['system']. *)
Definition is_system (m : Chat.message) : Prop := m !! "role" = Some (VStr "system").

#[global] Instance is_system_dec (m : Chat.message) : Decision (is_system m).
Proof. unfold is_system. apply _. Defined.

(** * Properties *)

(** ** The model against known values *)

Example md5_empty : MD5.hexdigest "" = "d41d8cd98f00b204e9800998ecf8427e".
Proof. vm_compute. reflexivity. Qed.

Example md5_abc : MD5.hexdigest "abc" = "900150983cd24fb0d6963f7d28e17f72".
Proof. vm_compute. reflexivity. Qed.

Example md5_two_blocks :
  MD5.hexdigest "aaaaaaaaaaaaaaaaaaaaaaaaaaaaaaaaaaaaaaaaaaaaaaaaaaaaaaaaaaaaaaaa"
  = "014842d480b571495a4a0363793f7367".
Proof. vm_compute. reflexivity. Qed.

Example validate_ok :
  validate_airtable_params Config.ProductionConfig
    (Some "appAAAAAAAAAAAAAA") (Some "tblcdFVUC3zJrbmNf") (Some " 1_000 ") None
  = inr {| base_id := Some "appAAAAAAAAAAAAAA"; table_id := Some "tblcdFVUC3zJrbmNf";
           max_records := Some 1000; filter_formula := None |}.
Proof. vm_compute. reflexivity. Qed.

Example validate_all_errors :
  validate_airtable_params Config.ProductionConfig
    (Some "app") None (Some "-5") (Some "<SCRIPT>eval(1)")
  = inl [BaseIdMalformed; TableIdRequired; MaxRecordsNotPositive;
         DangerousPattern "eval("; DangerousPattern "script>"].
Proof. vm_compute. reflexivity. Qed.

Example cache_key_with_filter_and_cap :
  SimpleCache._generate_key (Some "appAAAAAAAAAAAAAA") (Some "tblcdFVUC3zJrbmNf")
    (Some "{Status}='Open'") (Some 250)
  = "a2f039c4d4e87486d354a19397e25fa9".
Proof. vm_compute. reflexivity. Qed.

Example cache_key_example :
  SimpleCache._generate_key (Some "appAAAAAAAAAAAAAA") (Some "tblcdFVUC3zJrbmNf") None None
  = "5cd88e15ccce0fcc4c3bc101de7db75c".
Proof. vm_compute. reflexivity. Qed.

(** ** The pagination loop *)

Module LoopFacts.
Import Loop.

Lemma append_flattened_length (page_records : list upstream_record) :
  forall all all',
    append_flattened all page_records = Return all' ->
    length all' = (length all + length page_records)%nat.
Proof.
  induction page_records as [|record rest IH]; simpl; intros all all' Hrun.
  - injection Hrun as <-. lia.
  - destruct (flatten record) as [flat|e]; simpl in Hrun; [|discriminate].
    apply IH in Hrun. rewrite length_app in Hrun. simpl in Hrun. lia.
Qed.

Section WithRequest.

Variable params : validated_params.
Variable up : upstream.

(** Case analysis on the body of the loop. *)
Ltac iteration_cases st :=
  unfold iteration; simpl;
  destruct (build_page_params params _) as [pp|] eqn:Hpp; simpl;
  [ destruct (up (length (requests st)) pp) as [e text|response] eqn:Hup; simpl;
    [ | destruct (raise_for_status response) eqn:Hstatus; simpl;
        [ | destruct (json response) as [data|] eqn:Hjson; simpl;
            [ destruct (append_flattened (all_records st) (p_records data))
                as [all'|e] eqn:Happ; simpl;
              [ destruct (Py.truthy (p_offset data)) eqn:Hcursor; simpl | ]
            | ] ] ]
  | ].

Lemma iteration_page_count (st : state) :
  page_count (control_state (iteration params up st)) = S (page_count st).
Proof. iteration_cases st; reflexivity. Qed.

(** The page request does not depend on the page count or on the
    requests sent. *)
Lemma build_page_params_ext (st st' : state) :
  all_records st = all_records st' -> offset st = offset st' ->
  build_page_params params st = build_page_params params st'.
Proof. unfold build_page_params. by intros -> ->. Qed.

(** A pass sends the page request, if there is one to send. *)
Lemma iteration_requests (st : state) :
  requests (control_state (iteration params up st))
  = requests st ++ match build_page_params params st with
                   | Some pp => [pp]
                   | None => []
                   end.
Proof.
  rewrite (build_page_params_ext st
             {| all_records := all_records st; offset := offset st;
                page_count := S (page_count st); requests := requests st |})
    by reflexivity.
  iteration_cases st; by rewrite ?app_nil_r.
Qed.

(** Invariant rule for the loop: [P] holds of the state before each
    pass, [Q] of the way the loop ends. *)
Lemma while_loop_inv (P : state -> Prop) (Q : result -> Prop) :
  (forall st, P st -> (max_pages <= page_count st)%nat -> Q (Exited st)) ->
  (forall st, P st -> (page_count st < max_pages)%nat ->
     match iteration params up st with
     | Continue st' => P st'
     | Break st' => Q (Exited st')
     | ReturnResponse r st' => Q (Responded r st')
     | Raises e st' => Q (Failed e st')
     end) ->
  forall fuel st r, while_loop params up fuel st = Some r -> P st -> Q r.
Proof.
  intros Hexit Hbody fuel.
  induction fuel as [|fuel IH]; intros st r Hrun HP; simpl in Hrun;
    destruct (Nat.ltb_spec (page_count st) max_pages) as [Hlt|Hge];
    try discriminate;
    try (injection Hrun as <-; by apply Hexit).
  specialize (Hbody st HP Hlt).
  destruct (iteration params up st) as [st'|st'|resp st'|e st'];
    try (injection Hrun as <-; exact Hbody).
  eapply IH; eauto.
Qed.

(** With as many passes allowed as pages remain, the loop ends. *)
Lemma while_loop_total (fuel : nat) (st : state) :
  (max_pages - page_count st <= fuel)%nat ->
  exists r, while_loop params up fuel st = Some r.
Proof.
  revert st. induction fuel as [|fuel IH]; intros st Hfuel; simpl;
    destruct (Nat.ltb_spec (page_count st) max_pages) as [Hlt|Hge];
    eauto; try lia.
  pose proof (iteration_page_count st) as Hpc.
  destruct (iteration params up st) as [st'|st'|resp st'|e st']; eauto.
  apply IH. simpl in Hpc. lia.
Qed.

Lemma run_eq :
  exists r, while_loop params up max_pages init = Some r /\ run params up = r.
Proof.
  destruct (while_loop_total max_pages init) as [r Hr]; [unfold max_pages; simpl; lia|].
  exists r. split; [exact Hr|]. unfold run. by rewrite Hr.
Qed.

(** At most one request per pass, and at most [max_pages] passes. *)
Lemma while_loop_bounds (fuel : nat) (st : state) (r : result) :
  while_loop params up fuel st = Some r ->
  (length (requests st) <= page_count st <= max_pages)%nat ->
  (length (requests (final r)) <= page_count (final r) <= max_pages)%nat.
Proof.
  apply (while_loop_inv
           (fun st => (length (requests st) <= page_count st <= max_pages)%nat)
           (fun r => (length (requests (final r)) <= page_count (final r)
                      <= max_pages)%nat)).
  - intros st' H _. exact H.
  - intros st' [Hreq Hpc] Hlt.
    pose proof (iteration_page_count st') as Hcount.
    pose proof (iteration_requests st') as Hsent.
    assert (length (requests (control_state (iteration params up st')))
            <= S (length (requests st')))%nat as Hone.
    { rewrite Hsent, length_app. destruct (build_page_params params st'); simpl; lia. }
    destruct (iteration params up st'); unfold max_pages in *; simpl in *; lia.
Qed.

(** The requests already sent stay in the log. *)
Lemma while_loop_requests_prefix (fuel : nat) (st : state) (r : result) :
  while_loop params up fuel st = Some r ->
  exists more, requests (final r) = requests st ++ more.
Proof.
  intros Hrun.
  refine (while_loop_inv
            (fun st' => exists more, requests st' = requests st ++ more)
            (fun r => exists more, requests (final r) = requests st ++ more)
            _ _ fuel st r Hrun _).
  - intros st' H _. exact H.
  - intros st' [more Hmore] _.
    pose proof (iteration_requests st') as Hsent.
    rewrite Hmore, <- app_assoc in Hsent.
    destruct (iteration params up st'); simpl in *; eauto.
  - exists []. by rewrite app_nil_r.
Qed.

(** The loop goes on only past requests that did not fail, and a
    failed request ends it with the 502 response. *)
Lemma while_loop_failure (fuel : nat) (st : state) (r : result) :
  while_loop params up fuel st = Some r ->
  (forall n pp, requests st !! n = Some pp -> ~ failed (up n pp)) ->
  match r with
  | Responded resp _ =>
      exists text, resp = (Response.Error (Response.DataServiceError text), 502)
  | Exited st' | Failed _ st' =>
      forall n pp, requests st' !! n = Some pp -> ~ failed (up n pp)
  end.
Proof.
  apply (while_loop_inv
           (fun st => forall n pp, requests st !! n = Some pp -> ~ failed (up n pp))
           (fun r =>
              match r with
              | Responded resp _ =>
                  exists text,
                    resp = (Response.Error (Response.DataServiceError text), 502)
              | Exited st' | Failed _ st' =>
                  forall n pp, requests st' !! n = Some pp -> ~ failed (up n pp)
              end)).
  - intros st' H _. exact H.
  - intros st' Hsent _.
    assert (forall pp response,
              up (length (requests st')) pp = Responds response ->
              raise_for_status response = false ->
              forall n pp', (requests st' ++ [pp]) !! n = Some pp' ->
                            ~ failed (up n pp')) as Hnew.
    { intros pp response Hup Hstatus n pp' Hlook.
      apply lookup_app_Some in Hlook as [Hold|[Hn Hlast]]; [eauto|].
      apply list_lookup_singleton_Some in Hlast as [Hn' <-].
      replace n with (length (requests st')) by lia.
      rewrite Hup. simpl. congruence. }
    iteration_cases st'; eauto.
Qed.

(** With no cap, every pass sends a request. *)
Lemma while_loop_uncapped (fuel : nat) (st : state) (r : result) :
  max_records params = None ->
  while_loop params up fuel st = Some r ->
  length (requests st) = page_count st ->
  length (requests (final r)) = page_count (final r).
Proof.
  intros Hcap.
  apply (while_loop_inv
           (fun st => length (requests st) = page_count st)
           (fun r => length (requests (final r)) = page_count (final r))).
  - intros st' H _. exact H.
  - intros st' Hlen _.
    iteration_cases st'; rewrite ?length_app; simpl; try lia.
    unfold build_page_params in Hpp. rewrite Hcap in Hpp. discriminate.
Qed.

(** Under such an upstream the accumulated records stay within the cap. *)
Lemma while_loop_cap (cap : Z) (fuel : nat) (st : state) (r : result) :
  honours_limit up ->
  max_records params = Some cap ->
  while_loop params up fuel st = Some r ->
  Z.of_nat (length (all_records st)) <= cap ->
  Z.of_nat (length (all_records (final r))) <= cap.
Proof.
  intros Hhon Hcap.
  apply (while_loop_inv
           (fun st => Z.of_nat (length (all_records st)) <= cap)
           (fun r => Z.of_nat (length (all_records (final r))) <= cap)).
  - intros st' H _. exact H.
  - intros st' Hlen _.
    iteration_cases st'; try exact Hlen.
    all: unfold build_page_params in Hpp; rewrite Hcap in Hpp; simpl in Hpp.
    all: destruct (Z.leb_spec (cap - Z.of_nat (length (all_records st'))) 0);
      [discriminate|].
    all: injection Hpp as <-.
    all: specialize (Hhon _ _ _ _ _ Hup Hjson eq_refl).
    all: apply append_flattened_length in Happ.
    all: simpl in Hhon; lia.
Qed.

(** The page count is the number of passes begun: the number of
    requests sent, and one more when the last pass stopped on the cap
    before sending. *)
Lemma while_loop_passes (fuel : nat) (st : state) (r : result) :
  while_loop params up fuel st = Some r ->
  length (requests st) = page_count st ->
  (length (requests (final r)) <= page_count (final r)
   <= S (length (requests (final r))))%nat.
Proof.
  apply (while_loop_inv
           (fun st => length (requests st) = page_count st)
           (fun r => (length (requests (final r)) <= page_count (final r)
                      <= S (length (requests (final r))))%nat)).
  - intros st' H _. simpl. lia.
  - intros st' Hlen _.
    iteration_cases st'; rewrite ?length_app; simpl; lia.
Qed.

(** A successful page without records but with a cursor: the pass
    continues with the cursor and the records as they were. *)
Lemma iteration_empty_page (st : state) (pp : page_params)
    (response : http_response page) (data : page) :
  build_page_params params st = Some pp ->
  up (length (requests st)) pp = Responds response ->
  raise_for_status response = false ->
  json response = Some data ->
  p_records data = [] ->
  Py.truthy (p_offset data) = true ->
  iteration params up st
  = Continue {| all_records := all_records st; offset := p_offset data;
                page_count := S (page_count st);
                requests := requests st ++ [pp] |}.
Proof.
  intros Hbuild Hreply Hstatus Hjson Hrecords Hcursor. unfold iteration.
  rewrite <- (build_page_params_ext st) by reflexivity.
  rewrite Hbuild. simpl. rewrite Hreply, Hstatus, Hjson, Hrecords. simpl.
  by rewrite Hcursor.
Qed.

End WithRequest.

End LoopFacts.

(** ** Deduplication *)

Module DedupFacts.
Import Dedup DedupSpec.

Lemma sublist_same_length {A : Type} (l1 l2 : list A) :
  l1 `sublist_of` l2 -> length l1 = length l2 -> l1 = l2.
Proof.
  induction 1 as [|x l1 l2 _ IH|x l1 l2 Hsub _]; simpl; intros Hlen.
  - reflexivity.
  - f_equal. apply IH. lia.
  - apply sublist_length in Hsub. lia.
Qed.

Lemma step_eq (seen : gset hkey) (unique : list (gmap string value))
    (record : gmap string value) (k : hkey) :
  key record = Return k ->
  step (seen, unique) record
  = Return (if decide (k ∉ seen)
            then ({[k]} ∪ seen, unique ++ [record]) else (seen, unique)).
Proof.
  unfold step, key. intros ->. simpl. by destruct (decide (k ∉ seen)).
Qed.

(** The loop computes [first_occurrences], appended to what it starts
    from, and every record it walks over is hashable. *)
Lemma for_each_first_occurrences (all : list (gmap string value)) :
  forall seen unique seen' unique',
    for_each all (seen, unique) = Return (seen', unique') ->
    unique' = unique ++ first_occurrences seen all /\
    Forall (fun r => exists k, key r = Return k) all.
Proof.
  induction all as [|record rest IH]; cbn [for_each];
    intros seen unique seen' unique' Hrun.
  - injection Hrun as <- <-. by rewrite app_nil_r.
  - destruct (key record) as [k|e] eqn:Hkey.
    + rewrite (step_eq _ _ _ _ Hkey) in Hrun. cbn [bind] in Hrun.
      cbn [first_occurrences]. rewrite Hkey.
      destruct (decide (k ∉ seen)); apply IH in Hrun as [-> Hall].
      * rewrite <- app_assoc. split; [reflexivity|]. constructor; eauto.
      * split; [reflexivity|]. constructor; eauto.
    + unfold step, key in *. rewrite Hkey in Hrun. discriminate.
Qed.

Lemma for_each_unhashable (all : list (gmap string value)) :
  forall st e, for_each all st = Raise e -> e = TypeError.
Proof.
  induction all as [|record rest IH]; cbn [for_each]; intros [seen unique] e Hrun;
    [discriminate|].
  destruct (key record) as [k|e'] eqn:Hkey.
  - rewrite (step_eq _ _ _ _ Hkey) in Hrun. cbn [bind] in Hrun. eauto.
  - unfold step, key in *. rewrite Hkey in Hrun. simpl in Hrun.
    destruct (record_id record); simpl in Hkey; congruence.
Qed.

Lemma first_occurrences_sublist (all : list (gmap string value)) :
  forall seen, first_occurrences seen all `sublist_of` all.
Proof.
  induction all as [|record rest IH]; simpl; intros seen; [constructor|].
  destruct (key record) as [k|e]; [|apply sublist_nil_l].
  destruct (decide (k ∉ seen)); [apply sublist_skip|apply sublist_cons]; apply IH.
Qed.

(** The identifiers kept are new. *)
Lemma first_occurrences_fresh (all : list (gmap string value)) :
  forall seen r k,
    r ∈ first_occurrences seen all -> key r = Return k -> k ∉ seen.
Proof.
  induction all as [|record rest IH]; simpl; intros seen r k Hin Hk.
  - by apply elem_of_nil in Hin.
  - destruct (key record) as [k'|e] eqn:Hkey; [|by apply elem_of_nil in Hin].
    destruct (decide (k' ∉ seen)) as [Hnew|Hold].
    + apply elem_of_cons in Hin as [->|Hin].
      * congruence.
      * specialize (IH _ _ _ Hin Hk). set_solver.
    + eauto.
Qed.

Lemma first_occurrences_hashable (all : list (gmap string value)) :
  forall seen r, r ∈ first_occurrences seen all -> exists k, key r = Return k.
Proof.
  induction all as [|record rest IH]; simpl; intros seen r Hin.
  - by apply elem_of_nil in Hin.
  - destruct (key record) as [k'|e] eqn:Hkey; [|by apply elem_of_nil in Hin].
    destruct (decide (k' ∉ seen)); [|eauto].
    apply elem_of_cons in Hin as [->|Hin]; eauto.
Qed.

Lemma first_occurrences_NoDup (all : list (gmap string value)) :
  forall seen, NoDup (key <$> first_occurrences seen all).
Proof.
  induction all as [|record rest IH]; simpl; intros seen; [constructor|].
  destruct (key record) as [k|e] eqn:Hkey; [|constructor].
  destruct (decide (k ∉ seen)); [|apply IH].
  rewrite fmap_cons. apply NoDup_cons. split; [|apply IH].
  intros (r & Hr & Hin)%list_elem_of_fmap.
  apply (first_occurrences_fresh rest ({[k]} ∪ seen) r k); [done|congruence|].
  set_solver.
Qed.

Lemma first_occurrences_covers (all : list (gmap string value)) :
  forall seen r k,
    Forall (fun r => exists k, key r = Return k) all ->
    r ∈ all -> key r = Return k -> k ∉ seen ->
    exists r', r' ∈ first_occurrences seen all /\ key r' = key r.
Proof.
  induction all as [|record rest IH]; simpl; intros seen r k Hall Hin Hk Hnew.
  - by apply elem_of_nil in Hin.
  - apply Forall_cons in Hall as [[k' Hkey] Hall]. rewrite Hkey.
    destruct (decide (k' ∉ seen)) as [Hnew'|Hold].
    + destruct (decide (k = k')) as [->|Hne].
      * exists record. split; [left|congruence].
      * apply elem_of_cons in Hin as [->|Hin]; [congruence|].
        assert (k ∉ {[k']} ∪ seen) as Hfresh.
        { apply not_elem_of_union. split; [by apply not_elem_of_singleton|done]. }
        destruct (IH ({[k']} ∪ seen) r k Hall Hin Hk Hfresh) as (r' & Hr' & Heq).
        exists r'. split; [by right|done].
    + apply elem_of_cons in Hin as [->|Hin].
      * exfalso. apply Hold. congruence.
      * eauto.
Qed.

Lemma first_occurrences_first (all : list (gmap string value)) :
  forall seen r,
    Forall (fun r => exists k, key r = Return k) all ->
    r ∈ first_occurrences seen all -> find (same_key r) all = Some r.
Proof.
  induction all as [|record rest IH]; simpl; intros seen r Hall Hin.
  - by apply elem_of_nil in Hin.
  - apply Forall_cons in Hall as [[k' Hkey] Hall]. rewrite Hkey in Hin.
    unfold same_key at 1.
    destruct (decide (k' ∉ seen)) as [Hnew|Hold].
    + apply elem_of_cons in Hin as [->|Hin].
      * by rewrite bool_decide_eq_true_2.
      * destruct (first_occurrences_hashable _ _ _ Hin) as [k Hk].
        pose proof (first_occurrences_fresh _ _ _ _ Hin Hk) as Hfresh.
        rewrite bool_decide_eq_false_2; [eauto|].
        rewrite Hkey, Hk. intros [= ->]. set_solver.
    + destruct (first_occurrences_hashable _ _ _ Hin) as [k Hk].
      pose proof (first_occurrences_fresh _ _ _ _ Hin Hk) as Hfresh.
      rewrite bool_decide_eq_false_2; [eauto|].
      rewrite Hkey, Hk. intros [= ->]. done.
Qed.

(** Equal identifiers have equal keys, so distinct keys are distinct
    identifiers. *)
Lemma NoDup_key_record_id (l : list (gmap string value)) :
  NoDup (key <$> l) -> NoDup (record_id <$> l).
Proof.
  unfold key. rewrite (list_fmap_compose record_id hash_key).
  apply NoDup_fmap_1.
Qed.

(** What [unique_records] returns is the first-seen deduplication. *)
Lemma unique_records_first_seen (all unique : list (gmap string value)) :
  unique_records all = Return unique -> first_seen all unique.
Proof.
  unfold unique_records. destruct (for_each all (∅, [])) as [[seen' u]|e] eqn:Hrun;
    [|discriminate].
  simpl. intros [= <-].
  apply for_each_first_occurrences in Hrun as [-> Hall]. simpl.
  repeat split.
  - apply first_occurrences_sublist.
  - apply NoDup_key_record_id, first_occurrences_NoDup.
  - apply first_occurrences_NoDup.
  - intros r Hin.
    assert (exists k, key r = Return k) as [k Hk]
      by (rewrite Forall_forall in Hall; auto).
    eapply first_occurrences_covers; eauto. set_solver.
  - intros r Hin. eapply first_occurrences_first; eauto.
Qed.

(** The records put in the response are the deduplicated ones, whichever
    branch of [if len(unique_records) != original_count] is taken. *)
Lemma build_response_records (all unique : list (gmap string value)) (pages : nat) :
  unique `sublist_of` all ->
  Response.records (build_response all unique pages) = unique.
Proof.
  intros Hsub. unfold build_response. simpl.
  destruct (Nat.eqb_spec (length unique) (length all)) as [Heq|Hne]; simpl.
  - symmetry. by apply sublist_same_length.
  - reflexivity.
Qed.

End DedupFacts.

(** ** The cache *)

Module CacheFacts.
Import SimpleCache.

Section Lookup.

Context {A : Type}.
Variable self : t A.
Variables (now ttl_seconds : Z).
Variables (base_id table_id filter_formula : option string) (max_records : option Z).

Let cache_key := _generate_key base_id table_id filter_formula max_records.
Let looked_up := get self now base_id table_id filter_formula max_records ttl_seconds.

(** A lookup never adds an entry. *)
Lemma get_cache_lookup (k : string) (d : A) :
  _cache (snd looked_up) !! k = Some d -> _cache self !! k = Some d.
Proof.
  subst looked_up. unfold get. fold cache_key.
  destruct (_cache self !! cache_key) as [data|] eqn:Hc; [|done].
  destruct (now - _ >? ttl_seconds); [|done].
  destruct (_timestamps self !! cache_key); simpl;
    intros Hk; apply lookup_delete_Some in Hk; tauto.
Qed.

(** A hit returns the stored entry and leaves the cache as it was. *)
Lemma get_hit (d : A) :
  fst looked_up = Return (Some d) ->
  snd looked_up = self /\ _cache self !! cache_key = Some d.
Proof.
  subst looked_up. unfold get. fold cache_key.
  destruct (_cache self !! cache_key) as [data|] eqn:Hc; [|done].
  destruct (now - _ >? ttl_seconds).
  - destruct (_timestamps self !! cache_key); done.
  - simpl. intros [= ->]. done.
Qed.

(** After a miss the cache holds no entry under the key; it is the
    cache as it was unless an expired entry has been purged. *)
Lemma get_miss :
  fst looked_up = Return None ->
  _cache (snd looked_up) !! cache_key = None /\
  (_cache self !! cache_key = None -> snd looked_up = self).
Proof.
  subst looked_up. unfold get. fold cache_key.
  destruct (_cache self !! cache_key) as [data|] eqn:Hc; [|done].
  destruct (now - _ >? ttl_seconds); [|done].
  destruct (_timestamps self !! cache_key); simpl; [|done].
  intros _. split; [apply lookup_delete_eq|done].
Qed.

Lemma get_returns (o : outcome (option A)) (self' : t A) :
  looked_up = (o, self') ->
  (forall k d, _cache self' !! k = Some d -> _cache self !! k = Some d) /\
  (forall d, o = Return (Some d) ->
             self' = self /\ _cache self !! cache_key = Some d) /\
  (o = Return None ->
   _cache self' !! cache_key = None /\
   (_cache self !! cache_key = None -> self' = self)).
Proof.
  intros Heq.
  pose proof get_cache_lookup as Hsub. pose proof get_hit as Hhit.
  pose proof get_miss as Hmiss. rewrite Heq in Hsub, Hhit, Hmiss.
  simpl in *. split; [exact Hsub|]. split.
  - intros d ->. by apply Hhit.
  - intros ->. by apply Hmiss.
Qed.

End Lookup.

Section StoreThenLookup.

Context {A : Type}.
Variable self : t A.
Variables (inserted now ttl_seconds : Z) (data : A).
Variables (base_id table_id filter_formula : option string) (max_records : option Z).

Let cache_key := _generate_key base_id table_id filter_formula max_records.
Let stored := set self inserted base_id table_id data filter_formula max_records.

Lemma get_set_fresh :
  now <= inserted + ttl_seconds ->
  get stored now base_id table_id filter_formula max_records ttl_seconds
  = (Return (Some data), stored).
Proof.
  intros Hfresh. subst stored. unfold get, set. fold cache_key. simpl.
  rewrite !lookup_insert_eq. simpl.
  destruct (Z.gtb_spec (now - inserted) ttl_seconds); [lia|done].
Qed.

Lemma get_set_expired :
  inserted + ttl_seconds < now ->
  get stored now base_id table_id filter_formula max_records ttl_seconds
  = (Return None,
     {| _cache := delete cache_key (_cache self);
        _timestamps := delete cache_key (_timestamps self) |}).
Proof.
  intros Hold. subst stored. unfold get, set. fold cache_key. simpl.
  rewrite !lookup_insert_eq. simpl.
  destruct (Z.gtb_spec (now - inserted) ttl_seconds); [|lia].
  by rewrite !delete_insert_eq.
Qed.

End StoreThenLookup.

End CacheFacts.

(** C5, as amended: an entry stored at time [inserted] is returned, and
    the cache left as it is, by every lookup of the same parameters at a
    time up to and including [inserted + ttl_seconds]; a lookup strictly
    after [inserted + ttl_seconds] returns [None] and deletes the entry,
    payload and timestamp, from the cache. *)
Theorem C5_cache_entry_lifetime {A : Type} (self : SimpleCache.t A)
    (inserted now ttl_seconds : Z) (data : A)
    (base_id table_id filter_formula : option string) (max_records : option Z) :
  let cache_key := SimpleCache._generate_key base_id table_id filter_formula max_records in
  let stored :=
    SimpleCache.set self inserted base_id table_id data filter_formula max_records in
  let looked_up :=
    SimpleCache.get stored now base_id table_id filter_formula max_records ttl_seconds in
  (now <= inserted + ttl_seconds -> looked_up = (Return (Some data), stored)) /\
  (inserted + ttl_seconds < now ->
   fst looked_up = Return None /\
   SimpleCache._cache (snd looked_up) !! cache_key = None /\
   SimpleCache._timestamps (snd looked_up) !! cache_key = None /\
   SimpleCache._cache (snd looked_up) = delete cache_key (SimpleCache._cache self)).
Proof.
  intros cache_key stored looked_up. split; intros Htime.
  - by apply CacheFacts.get_set_fresh.
  - subst looked_up stored. rewrite CacheFacts.get_set_expired by done. simpl.
    fold cache_key. by rewrite !lookup_delete_eq.
Qed.

Lemma C5_cache_entry_lifetime_witness :
  let stored :=
    SimpleCache.set SimpleCache.init 1000 (baseId sample_args) (tableId sample_args)
      sample_payload None None in
  SimpleCache.get stored 1200 (baseId sample_args) (tableId sample_args) None None 300
  = (Return (Some sample_payload), stored) /\
  fst (SimpleCache.get stored 1301 (baseId sample_args) (tableId sample_args)
         None None 300) = Return None.
Proof.
  split.
  - apply (proj1 (C5_cache_entry_lifetime SimpleCache.init 1000 1200 300 sample_payload
                    (baseId sample_args) (tableId sample_args) None None)).
    lia.
  - apply (proj2 (C5_cache_entry_lifetime SimpleCache.init 1000 1301 300 sample_payload
                    (baseId sample_args) (tableId sample_args) None None)).
    lia.
Defined.

(** C5 as stated fails at the boundary: a lookup at exactly
    [inserted + ttl_seconds] still returns the entry and keeps it. *)
Lemma C5_counterexample :
  let cache_key :=
    SimpleCache._generate_key (baseId sample_args) (tableId sample_args) None None in
  let stored :=
    SimpleCache.set SimpleCache.init 1000 (baseId sample_args) (tableId sample_args)
      sample_payload None None in
  let looked_up :=
    SimpleCache.get stored (1000 + 300) (baseId sample_args) (tableId sample_args)
      None None 300 in
  fst looked_up = Return (Some sample_payload) /\
  fst looked_up <> Return None /\
  SimpleCache._cache (snd looked_up) !! cache_key = Some sample_payload.
Proof. vm_compute. repeat split; discriminate. Qed.

(** ** The handler *)

(** Case analysis along the paths of the handler, once the parameters
    are validated, and from its start. *)
Ltac lookup_cases :=
  destruct (SimpleCache.get _ _ _ _ _ _ _) as [[[cached|]|e] cache1] eqn:Hget;
  [ | destruct (Loop.run _ _) as [st|r st|e st] eqn:Hrun;
      [ destruct (Dedup.unique_records _) as [unique|e] eqn:Hdedup | | ]
    | ];
  cbn beta iota.

Ltac handler_cases :=
  unfold get_airtable_records;
  destruct (validate_airtable_params _ _ _ _ _) as [errors|params] eqn:Hvalid;
  [ cbn beta iota | lookup_cases ].

Module HandlerFacts.

Lemma run_responded (params : validated_params) (up : upstream)
    (r : Response.t) (st : Loop.state) :
  Loop.run params up = Loop.Responded r st ->
  exists text, r = (Response.Error (Response.DataServiceError text), 502).
Proof.
  destruct (LoopFacts.run_eq params up) as (res & Hloop & ->). intros ->.
  apply (LoopFacts.while_loop_failure params up _ _ _ Hloop).
  intros n pp Hlook. cbn in Hlook. discriminate.
Qed.

Lemma set_deduplicated (c : SimpleCache.t Response.data) (now : Z)
    (b t f : option string) (m : option Z) (d : Response.data) :
  cache_deduplicated c -> NoDup (record_id <$> Response.records d) ->
  cache_deduplicated (SimpleCache.set c now b t d f m).
Proof.
  intros Hc Hd k d'. unfold SimpleCache.set. cbn [SimpleCache._cache].
  rewrite lookup_insert. case_decide; [by intros [= <-]|apply Hc].
Qed.

Lemma get_deduplicated (c c' : SimpleCache.t Response.data) (now ttl : Z)
    (b t f : option string) (m : option Z) (o : outcome (option Response.data)) :
  SimpleCache.get c now b t f m ttl = (o, c') ->
  cache_deduplicated c -> cache_deduplicated c'.
Proof.
  intros Hget Hc k d Hk.
  destruct (CacheFacts.get_returns _ _ _ _ _ _ _ _ _ Hget) as (Hsub & _). eauto.
Qed.

End HandlerFacts.

(** C1: the records of a successful response of the records endpoint
    carry pairwise distinct identifiers, provided the payloads already in
    the cache do, and then so do the payloads of the cache afterwards;
    when the response comes from an aggregation (validation passed and the
    cache lookup missed), its records are the accumulated records
    deduplicated by identifier with the first-seen record kept and the
    accumulation order preserved. *)
Theorem C1_no_duplicate_identifiers (AppConfig : Config.t) (args : request_args)
    (up : upstream) (t_lookup t_store : Z) (cache0 : SimpleCache.t Response.data)
    (d : Response.data) :
  let h := get_airtable_records AppConfig args up t_lookup t_store cache0 in
  cache_deduplicated cache0 ->
  fst (response h) = Response.Data d ->
  NoDup (record_id <$> Response.records d) /\
  cache_deduplicated (cache h) /\
  forall params,
    validate_airtable_params AppConfig (baseId args) (tableId args)
      (maxRecords args) (filterByFormula args) = inr params ->
    fst (cache_lookup cache0 t_lookup params) = Return None ->
    DedupSpec.first_seen (accumulated params up) (Response.records d).
Proof.
  intros h Hinv. subst h. unfold cache_lookup, cache_ttl, accumulated.
  handler_cases; cbn [response cache fst]; intros Hdata; try discriminate.
  - injection Hdata as <-.
    pose proof (HandlerFacts.get_deduplicated _ _ _ _ _ _ _ _ _ Hget Hinv) as Hinv1.
    destruct (CacheFacts.get_returns _ _ _ _ _ _ _ _ _ Hget) as (_ & Hhit & _).
    destruct (Hhit _ eq_refl) as [_ Hin].
    split; [eauto|]. split; [exact Hinv1|].
    intros params' [= <-]. rewrite Hget. discriminate.
  - injection Hdata as <-.
    pose proof (HandlerFacts.get_deduplicated _ _ _ _ _ _ _ _ _ Hget Hinv) as Hinv1.
    pose proof (DedupFacts.unique_records_first_seen _ _ Hdedup) as Hfirst.
    assert (Response.records (build_response (Loop.all_records st) unique
                                (Loop.page_count st)) = unique) as Hrec.
    { apply DedupFacts.build_response_records, Hfirst. }
    rewrite Hrec. split; [apply Hfirst|]. split.
    + apply HandlerFacts.set_deduplicated; [done|]. rewrite Hrec. apply Hfirst.
    + intros params' [= <-] _. rewrite Hrun. exact Hfirst.
  - destruct (HandlerFacts.run_responded _ _ _ _ Hrun) as [text ->]. discriminate.
Qed.

(** ** Validation *)

Module ValidationFacts.

(** What a successful validation has checked. *)
Lemma validate_inr (AppConfig : Config.t)
    (b t m f : option string) (params : validated_params) :
  validate_airtable_params AppConfig b t m f = inr params ->
  check_identifier "app" BaseIdRequired BaseIdMalformed b = [] /\
  check_identifier "tbl" TableIdRequired TableIdMalformed t = [] /\
  snd (check_max_records AppConfig m) = [] /\
  check_filter f = [] /\
  params = {| base_id := b; table_id := t;
              max_records := fst (check_max_records AppConfig m);
              filter_formula := f |}.
Proof.
  unfold validate_airtable_params.
  destruct (check_max_records AppConfig m) as [cap cap_errors].
  destruct (_ ++ _) as [|e errors] eqn:Herrors; [|discriminate].
  intros [= <-].
  apply app_eq_nil in Herrors as [Hb Herrors].
  apply app_eq_nil in Herrors as [Ht Herrors].
  apply app_eq_nil in Herrors as [Hm Hf]. done.
Qed.

(** A validated cap is positive and within the configured limit. *)
Lemma validated_cap (AppConfig : Config.t)
    (b t m f : option string) (params : validated_params) (cap : Z) :
  validate_airtable_params AppConfig b t m f = inr params ->
  max_records params = Some cap ->
  0 < cap <= Config.MAX_TOTAL_RECORDS AppConfig.
Proof.
  intros (_ & _ & Hm & _ & ->)%validate_inr. simpl.
  unfold check_max_records in *.
  destruct (Py.truthy m); [|discriminate].
  destruct (Py.int (Py.or_empty m)) as [n|]; [|discriminate].
  simpl in *. intros [= ->].
  destruct (Z.leb_spec cap 0); [discriminate|].
  destruct (Z.gtb_spec cap (Config.MAX_TOTAL_RECORDS AppConfig)); [discriminate|].
  lia.
Qed.

End ValidationFacts.

(** C2, as amended: for a request whose cap was given and validated, a
    successful response holds at most [cap] records, provided the
    upstream returns on every page no more records than the page request
    asked for with [maxRecords], and any payload the cache serves for the
    request holds at most [cap] records. *)
Theorem C2_cap_respected (AppConfig : Config.t) (args : request_args)
    (up : upstream) (t_lookup t_store : Z) (cache0 : SimpleCache.t Response.data)
    (params : validated_params) (cap : Z) (d : Response.data) :
  let h := get_airtable_records AppConfig args up t_lookup t_store cache0 in
  validate_airtable_params AppConfig (baseId args) (tableId args)
    (maxRecords args) (filterByFormula args) = inr params ->
  max_records params = Some cap ->
  honours_limit up ->
  (forall cached, fst (cache_lookup cache0 t_lookup params) = Return (Some cached) ->
                  Z.of_nat (length (Response.records cached)) <= cap) ->
  fst (response h) = Response.Data d ->
  Z.of_nat (length (Response.records d)) <= cap.
Proof.
  intros h Hparams Hcap Hup Hcached. subst h. unfold cache_lookup, cache_ttl in Hcached.
  pose proof (ValidationFacts.validated_cap _ _ _ _ _ _ _ Hparams Hcap) as Hpos.
  unfold get_airtable_records. rewrite Hparams.
  lookup_cases; cbn [response fst]; intros Hdata; try discriminate.
  - injection Hdata as <-. by apply Hcached.
  - injection Hdata as <-.
    pose proof (DedupFacts.unique_records_first_seen _ _ Hdedup) as [Hsub _].
    rewrite (DedupFacts.build_response_records _ _ _ Hsub).
    apply sublist_length in Hsub.
    destruct (LoopFacts.run_eq params up) as (res & Hloop & Hres).
    rewrite Hrun in Hres. subst res.
    pose proof (LoopFacts.while_loop_cap params up cap _ _ _ Hup Hcap Hloop) as Hall.
    simpl in Hall. lia.
  - destruct (HandlerFacts.run_responded _ _ _ _ Hrun) as [text ->]. discriminate.
Qed.

Lemma obedient_honours_limit : honours_limit obedient.
Proof.
  intros n pp response data limit Hup Hjson Hlimit Hpos. unfold obedient in Hup.
  rewrite Hlimit in Hup. injection Hup as <-. injection Hjson as <-.
  cbn [p_records]. rewrite length_map, length_seq. lia.
Qed.

Lemma C2_cap_respected_witness :
  let h := get_airtable_records Config.ProductionConfig (with_cap "3" sample_args)
             obedient 0 1 SimpleCache.init in
  Z.of_nat (length (Response.records (data_of h))) <= 3.
Proof.
  intros h.
  apply (C2_cap_respected Config.ProductionConfig (with_cap "3" sample_args)
           obedient 0 1 SimpleCache.init
           {| base_id := Some "appAAAAAAAAAAAAAA"; table_id := Some "tblcdFVUC3zJrbmNf";
              max_records := Some 3; filter_formula := None |} 3 (data_of h)).
  - vm_compute. reflexivity.
  - reflexivity.
  - exact obedient_honours_limit.
  - intros cached Hhit. vm_compute in Hhit. discriminate.
  - vm_compute. reflexivity.
Defined.

(** C2 as stated fails: with a cap of 1 and an upstream whose page holds
    two records, the response holds two records. *)
Lemma C2_counterexample :
  let h := get_airtable_records Config.ProductionConfig (with_cap "1" sample_args)
             two_records 0 1 SimpleCache.init in
  validate_airtable_params Config.ProductionConfig (baseId (with_cap "1" sample_args))
    (tableId (with_cap "1" sample_args)) (maxRecords (with_cap "1" sample_args))
    (filterByFormula (with_cap "1" sample_args))
  = inr {| base_id := Some "appAAAAAAAAAAAAAA"; table_id := Some "tblcdFVUC3zJrbmNf";
           max_records := Some 1; filter_formula := None |} /\
  snd (response h) = 200 /\
  length (Response.body_records (fst (response h))) = 2%nat /\
  Response.total_records (Response.pagination_info (data_of h)) = 2.
Proof. vm_compute. repeat split. Qed.

Module AggregationFacts.

(** A request found among those sent whose reply is a failure ends the
    handler on the 502 response, with the cache as the lookup left it. *)
Lemma failed_request (AppConfig : Config.t) (args : request_args)
    (up : upstream) (t_lookup t_store : Z) (cache0 : SimpleCache.t Response.data)
    (n : nat) (pp : page_params) :
  let h := get_airtable_records AppConfig args up t_lookup t_store cache0 in
  upstream_requests h !! n = Some pp ->
  failed (up n pp) ->
  exists params text,
    validate_airtable_params AppConfig (baseId args) (tableId args)
      (maxRecords args) (filterByFormula args) = inr params /\
    fst (cache_lookup cache0 t_lookup params) = Return None /\
    response h = (Response.Error (Response.DataServiceError text), 502) /\
    cache h = snd (cache_lookup cache0 t_lookup params).
Proof.
  intros h. subst h. unfold cache_lookup, cache_ttl.
  handler_cases; cbn [upstream_requests response cache]; intros Hsent Hfailed;
    try (cbn in Hsent; discriminate).
  all: destruct (LoopFacts.run_eq params up) as (res & Hloop & Hres).
  all: rewrite Hrun in Hres; subst res.
  all: pose proof (LoopFacts.while_loop_failure params up _ _ _ Hloop) as Hfail.
  all: simpl in Hfail.
  all: try (exfalso; eapply Hfail; eauto; intros ? ? [=]).
  destruct Hfail as [text ->]; [intros ? ? [=]|].
  exists params, text. by rewrite Hget.
Qed.

End AggregationFacts.

(** C3, as amended: whatever the upstream replies, also when every page
    carries a cursor, and whatever the configuration, the pagination loop
    ends: [max_pages], the handler's own ceiling of 100, passes always
    suffice. It begins at most 100 passes and the handler sends at most
    100 page requests. *)
Theorem C3_page_ceiling (AppConfig : Config.t) (args : request_args)
    (up : upstream) (t_lookup t_store : Z) (cache0 : SimpleCache.t Response.data)
    (params : validated_params) :
  let h := get_airtable_records AppConfig args up t_lookup t_store cache0 in
  Loop.max_pages = 100%nat /\
  (length (upstream_requests h) <= Loop.max_pages)%nat /\
  exists r,
    Loop.while_loop params up Loop.max_pages Loop.init = Some r /\
    Loop.run params up = r /\
    (length (Loop.requests (Loop.final r)) <= Loop.page_count (Loop.final r)
     <= Loop.max_pages)%nat.
Proof.
  intros h.
  assert (forall p, (length (Loop.requests (Loop.final (Loop.run p up)))
                     <= Loop.page_count (Loop.final (Loop.run p up))
                     <= Loop.max_pages)%nat) as Hbound.
  { intros p. destruct (LoopFacts.run_eq p up) as (r & Hloop & ->).
    apply (LoopFacts.while_loop_bounds p up _ _ _ Hloop). simpl. lia. }
  split; [reflexivity|]. split.
  - subst h. clear params.
    handler_cases; cbn [upstream_requests length]; try lia.
    all: specialize (Hbound params); rewrite Hrun in Hbound; simpl in Hbound; lia.
  - destruct (LoopFacts.run_eq params up) as (r & Hloop & Hrun).
    exists r. specialize (Hbound params). rewrite Hrun in Hbound. done.
Qed.

(** C3 as stated fails: the configured ceiling [MAX_PAGINATION_PAGES] is
    50 in the default profile and 5 under [TestConfig], and against
    [endless] the loop makes 100 passes and sends 100 page requests under
    either. *)
Lemma C3_counterexample :
  let production := Config.get_config None in
  let h := get_airtable_records production sample_args endless 0 1 SimpleCache.init in
  let h' := get_airtable_records Config.TestConfig sample_args endless 0 1
              SimpleCache.init in
  Config.MAX_PAGINATION_PAGES production = 50 /\
  Config.MAX_PAGINATION_PAGES Config.TestConfig = 5 /\
  Response.pages_fetched (Response.pagination_info (data_of h)) = 100 /\
  Response.pages_fetched (Response.pagination_info (data_of h')) = 100 /\
  ~ (Z.of_nat (length (upstream_requests h))
     <= Config.MAX_PAGINATION_PAGES production) /\
  ~ (Z.of_nat (length (upstream_requests h'))
     <= Config.MAX_PAGINATION_PAGES Config.TestConfig).
Proof. vm_compute. repeat split; intros H; by apply H. Qed.

(** Against [endless] the handler stops after exactly 100 requests, also
    under [TestConfig], whose [MAX_PAGINATION_PAGES] is 5: the ceiling is
    the handler's own [max_pages]. *)
Example endless_stops_at_100 :
  let h := get_airtable_records Config.TestConfig sample_args endless 0 1
             SimpleCache.init in
  snd (response h) = 200 /\
  length (upstream_requests h) = 100%nat /\
  Response.pages_fetched (Response.pagination_info (data_of h)) = 100 /\
  Config.MAX_PAGINATION_PAGES Config.TestConfig = 5.
Proof. vm_compute. repeat split. Qed.

(** C6, as amended: if an upstream page request of the aggregation fails
    (a transport failure, a timeout, or a 4xx or 5xx status), the records
    endpoint answers 502 with an error body, which holds no records (those
    of earlier pages are dropped), and stores no cache entry: the cache is
    left as the handler's initial lookup left it, with no entry under the
    request's key, and is the cache as it was before the request unless
    that lookup purged an expired entry of the key. *)
Theorem C6_failure_discards_records (AppConfig : Config.t) (args : request_args)
    (up : upstream) (t_lookup t_store : Z) (cache0 : SimpleCache.t Response.data)
    (n : nat) (pp : page_params) :
  let h := get_airtable_records AppConfig args up t_lookup t_store cache0 in
  upstream_requests h !! n = Some pp ->
  failed (up n pp) ->
  exists params text,
    validate_airtable_params AppConfig (baseId args) (tableId args)
      (maxRecords args) (filterByFormula args) = inr params /\
    response h = (Response.Error (Response.DataServiceError text), 502) /\
    Response.body_records (fst (response h)) = [] /\
    cache h = snd (cache_lookup cache0 t_lookup params) /\
    SimpleCache._cache (cache h) !! request_key params = None /\
    (SimpleCache._cache cache0 !! request_key params = None -> cache h = cache0).
Proof.
  intros h Hsent Hfailed. subst h.
  destruct (AggregationFacts.failed_request _ _ _ _ _ _ _ _ Hsent Hfailed)
    as (params & text & Hvalid & Hmiss & Hresp & Hcache).
  exists params, text. rewrite Hresp, Hcache.
  unfold cache_lookup in *.
  destruct (SimpleCache.get _ _ _ _ _ _ _) as [o cache1] eqn:Hget.
  destruct (CacheFacts.get_returns _ _ _ _ _ _ _ _ _ Hget) as (_ & _ & Hnone).
  simpl in Hmiss. destruct (Hnone Hmiss) as [Hgone Hsame]. done.
Qed.

Lemma C6_failure_discards_records_witness :
  let h := get_airtable_records Config.ProductionConfig sample_args
             times_out_on_page_2 0 1 SimpleCache.init in
  exists params text,
    validate_airtable_params Config.ProductionConfig (baseId sample_args)
      (tableId sample_args) (maxRecords sample_args) (filterByFormula sample_args)
    = inr params /\
    response h = (Response.Error (Response.DataServiceError text), 502) /\
    Response.body_records (fst (response h)) = [] /\
    cache h = snd (cache_lookup SimpleCache.init 0 params) /\
    SimpleCache._cache (cache h) !! request_key params = None /\
    (SimpleCache._cache (@SimpleCache.init Response.data) !! request_key params = None ->
     cache h = SimpleCache.init).
Proof.
  intros h.
  apply (C6_failure_discards_records Config.ProductionConfig sample_args
           times_out_on_page_2 0 1 SimpleCache.init 1%nat
           {| pp_offset := Some "itr1"; pp_maxRecords := None;
              pp_filterByFormula := None;
              pp_sort := Some ("Date Created", "desc") |}).
  - vm_compute. reflexivity.
  - exact I.
Defined.

(** C6 as stated fails on "the cache is unchanged": an expired entry of
    the request's key is purged by the lookup before the upstream fails. *)
Lemma C6_counterexample :
  let cache0 :=
    SimpleCache.set SimpleCache.init 0 (baseId sample_args) (tableId sample_args)
      sample_payload None None in
  let h := get_airtable_records Config.ProductionConfig sample_args unreachable
             1000 1001 cache0 in
  let cache_key :=
    SimpleCache._generate_key (baseId sample_args) (tableId sample_args) None None in
  snd (response h) = 502 /\
  SimpleCache._cache cache0 !! cache_key = Some sample_payload /\
  SimpleCache._cache (cache h) !! cache_key = None /\
  cache h <> cache0.
Proof.
  intros cache0 h cache_key.
  split; [vm_compute; reflexivity|].
  split; [vm_compute; reflexivity|].
  split; [vm_compute; reflexivity|].
  intros Heq.
  apply (f_equal (fun c => SimpleCache._cache c !! cache_key)) in Heq.
  vm_compute in Heq. discriminate.
Qed.

(** ** [pagination_info] *)

Module InfoFacts.

(** The counts reported by an aggregation: [total_records] is the number
    of records returned, [duplicates_removed] the number of accumulated
    records dropped, and [pages_fetched] the number of passes of the loop
    begun, which is the number of page requests sent or one more; it is
    that number when no cap was given. *)
Lemma counts (AppConfig : Config.t) (args : request_args)
    (up : upstream) (t_lookup t_store : Z) (cache0 : SimpleCache.t Response.data)
    (params : validated_params) (d : Response.data) :
  let h := get_airtable_records AppConfig args up t_lookup t_store cache0 in
  let info := Response.pagination_info d in
  validate_airtable_params AppConfig (baseId args) (tableId args)
    (maxRecords args) (filterByFormula args) = inr params ->
  fst (cache_lookup cache0 t_lookup params) = Return None ->
  fst (response h) = Response.Data d ->
  Response.total_records info = Z.of_nat (length (Response.records d)) /\
  Response.duplicates_removed info
  = Z.of_nat (length (accumulated params up)) - Z.of_nat (length (Response.records d)) /\
  Z.of_nat (length (upstream_requests h)) <= Response.pages_fetched info
    <= Z.of_nat (length (upstream_requests h)) + 1 /\
  (max_records params = None ->
   Response.pages_fetched info = Z.of_nat (length (upstream_requests h))).
Proof.
  intros h info Hparams Hmiss. subst h info. unfold cache_lookup, cache_ttl, accumulated in *.
  unfold get_airtable_records. rewrite Hparams.
  lookup_cases; cbn [response fst upstream_requests]; intros Hdata;
    try discriminate.
  - injection Hdata as <-.
    destruct (LoopFacts.run_eq params up) as (res & Hloop & Hres).
    rewrite Hrun in *. subst res.
    pose proof (LoopFacts.while_loop_passes params up _ _ _ Hloop eq_refl) as Hpass.
    simpl in Hpass. simpl.
    split; [reflexivity|]. split; [reflexivity|]. split; [lia|].
    intros Hcap.
    pose proof (LoopFacts.while_loop_uncapped params up _ _ _ Hcap Hloop eq_refl).
    simpl in *. lia.
  - destruct (HandlerFacts.run_responded _ _ _ _ Hrun) as [text ->]. discriminate.
Qed.

End InfoFacts.

(** Three pages of 100, 100 and 42 distinct records, no cap. *)
Example three_pages_scenario :
  let h := get_airtable_records Config.ProductionConfig sample_args three_pages
             0 1 SimpleCache.init in
  snd (response h) = 200 /\
  length (upstream_requests h) = 3%nat /\
  Response.pagination_info (data_of h)
  = {| Response.total_records := 242; Response.pages_fetched := 3;
       Response.server_side_pagination := true;
       Response.duplicates_removed := 0 |}.
Proof. vm_compute. repeat split. Qed.

Example duplicate_pages_scenario :
  let h := get_airtable_records Config.ProductionConfig sample_args duplicate_pages
             0 1 SimpleCache.init in
  record_id <$> Response.records (data_of h) = [VStr "rec1"; VStr "rec2"; VStr "rec3"] /\
  Response.pagination_info (data_of h)
  = {| Response.total_records := 3; Response.pages_fetched := 2;
       Response.server_side_pagination := true;
       Response.duplicates_removed := 1 |}.
Proof. vm_compute. repeat split. Qed.

(** C7 at the failing input: with a cap of 1 and an upstream whose page
    holds one record and a cursor, the handler sends one page request and
    reports [pages_fetched = 2]; the other two counts are right. *)
Theorem C7_pages_fetched_at_the_cap :
  let h := get_airtable_records Config.ProductionConfig (with_cap "1" sample_args)
             endless 0 1 SimpleCache.init in
  snd (response h) = 200 /\
  length (upstream_requests h) = 1%nat /\
  length (Response.records (data_of h)) = 1%nat /\
  Response.pagination_info (data_of h)
  = {| Response.total_records := 1; Response.pages_fetched := 2;
       Response.server_side_pagination := true;
       Response.duplicates_removed := 0 |}.
Proof. vm_compute. repeat split. Qed.

Lemma C1_no_duplicate_identifiers_witness :
  let h := get_airtable_records Config.ProductionConfig sample_args duplicate_pages
             0 1 SimpleCache.init in
  NoDup (record_id <$> Response.records (data_of h)) /\
  DedupSpec.first_seen
    (accumulated {| base_id := baseId sample_args; table_id := tableId sample_args;
                    max_records := None; filter_formula := None |} duplicate_pages)
    (Response.records (data_of h)).
Proof.
  intros h.
  destruct (C1_no_duplicate_identifiers Config.ProductionConfig sample_args
              duplicate_pages 0 1 SimpleCache.init (data_of h))
    as (Hnodup & _ & Hfirst).
  - intros k d Hk. cbn [SimpleCache.init SimpleCache._cache] in Hk.
    rewrite lookup_empty in Hk. discriminate.
  - vm_compute. reflexivity.
  - split; [exact Hnodup|]. apply Hfirst; vm_compute; reflexivity.
Defined.

(** C8, as amended: a failed page request of the records endpoint, be it
    a timeout, an unreachable upstream or a 4xx or 5xx reply, yields HTTP
    502 with a "Data service error" message. It is the chat relay that
    answers 504 on a timeout, 503 when the upstream cannot be reached, 502
    on any other request failure, and passes an upstream status other than
    200 through with a message. *)
Theorem C8_upstream_failure_statuses (AppConfig : Config.t) (args : request_args)
    (up : upstream) (t_lookup t_store : Z) (cache0 : SimpleCache.t Response.data)
    (n : nat) (pp : page_params) :
  let h := get_airtable_records AppConfig args up t_lookup t_store cache0 in
  upstream_requests h !! n = Some pp ->
  failed (up n pp) ->
  (exists text, response h = (Response.Error (Response.DataServiceError text), 502)) /\
  (forall (B : Type) (text : string),
     snd (Chat.forward (@Fails B Timeout text)) = 504 /\
     snd (Chat.forward (@Fails B ConnectionError text)) = 503 /\
     snd (Chat.forward (@Fails B OtherRequestException text)) = 502) /\
  (forall (B : Type) (r : http_response B),
     status_code r <> 200 ->
     Chat.forward (Responds r)
     = (Chat.Error (Chat.UpstreamStatus (status_code r)), status_code r)).
Proof.
  intros h Hsent Hfailed. subst h. split; [|split].
  - destruct (AggregationFacts.failed_request _ _ _ _ _ _ _ _ Hsent Hfailed)
      as (params & text & _ & _ & Hresp & _).
    eauto.
  - intros B text. repeat split.
  - intros B r Hstatus. unfold Chat.forward.
    destruct (Z.eqb_spec (status_code r) 200); [contradiction|reflexivity].
Qed.

Lemma C8_upstream_failure_statuses_witness :
  let h := get_airtable_records Config.ProductionConfig sample_args
             times_out_on_page_2 0 1 SimpleCache.init in
  exists text, response h = (Response.Error (Response.DataServiceError text), 502).
Proof.
  intros h.
  apply (C8_upstream_failure_statuses Config.ProductionConfig sample_args
           times_out_on_page_2 0 1 SimpleCache.init 1%nat
           {| pp_offset := Some "itr1"; pp_maxRecords := None;
              pp_filterByFormula := None;
              pp_sort := Some ("Date Created", "desc") |}).
  - vm_compute. reflexivity.
  - exact I.
Defined.

(** C8 as stated fails for the records endpoint: an unreachable upstream
    yields 502, not 503, and an upstream 404 yields 502, not 404. *)
Lemma C8_counterexample :
  let h1 := get_airtable_records Config.ProductionConfig sample_args unreachable
              0 1 SimpleCache.init in
  let h2 := get_airtable_records Config.ProductionConfig sample_args not_found
              0 1 SimpleCache.init in
  unreachable 0%nat {| pp_offset := None; pp_maxRecords := None;
                       pp_filterByFormula := None;
                       pp_sort := Some ("Date Created", "desc") |}
  = Fails ConnectionError "Connection refused" /\
  response h1
  = (Response.Error (Response.DataServiceError "Connection refused"), 502) /\
  snd (response h1) <> 503 /\
  response h2
  = (Response.Error (Response.DataServiceError "404 Client Error: Not Found"), 502) /\
  snd (response h2) <> 404.
Proof. vm_compute. repeat split; discriminate. Qed.

(** C9: when a pass of the loop sends a page request (the cap, if any, is
    not met) and the upstream answers with a page of no records and a
    non-empty cursor, and the page count after that pass is still below
    [max_pages], the loop does not stop there: it sends a further page
    request, which carries that cursor. *)
Theorem C9_empty_page_with_cursor_continues (params : validated_params)
    (up : upstream) (st : Loop.state) (pp : page_params)
    (response : http_response page) (data : page) (cursor : string) :
  (S (Loop.page_count st) < Loop.max_pages)%nat ->
  Loop.build_page_params params st = Some pp ->
  up (length (Loop.requests st)) pp = Responds response ->
  raise_for_status response = false ->
  json response = Some data ->
  p_records data = [] ->
  p_offset data = Some cursor ->
  cursor <> "" ->
  exists r pp' rest,
    Loop.while_loop params up (Loop.max_pages - Loop.page_count st) st = Some r /\
    Loop.requests (Loop.final r) = Loop.requests st ++ pp :: pp' :: rest /\
    pp_offset pp' = Some cursor.
Proof.
  intros Hceiling Hbuild Hreply Hstatus Hjson Hrecords Hoffset Hcursor.
  assert (Py.truthy (p_offset data) = true) as Htruthy.
  { rewrite Hoffset. by destruct cursor. }
  pose proof (LoopFacts.iteration_empty_page params up st pp response data
                Hbuild Hreply Hstatus Hjson Hrecords Htruthy) as Hpass.
  set (st1 := {| Loop.all_records := Loop.all_records st;
                 Loop.offset := p_offset data;
                 Loop.page_count := S (Loop.page_count st);
                 Loop.requests := Loop.requests st ++ [pp] |}) in *.
  assert (exists pp', Loop.build_page_params params st1 = Some pp' /\
                      pp_offset pp' = Some cursor) as (pp' & Hbuild' & Hpp').
  { unfold Loop.build_page_params in *. subst st1. cbn [Loop.all_records Loop.offset].
    rewrite Htruthy, Hoffset.
    destruct (max_records params) as [cap|]; [|eauto].
    destruct (cap - Z.of_nat (length (Loop.all_records st)) <=? 0);
      [discriminate|eauto]. }
  pose proof (LoopFacts.iteration_requests params up st1) as Hsent.
  rewrite Hbuild' in Hsent.
  destruct (Loop.max_pages - Loop.page_count st)%nat as [|[|fuel]] eqn:Hfuel;
    [lia|lia|].
  cbn [Loop.while_loop].
  destruct (Nat.ltb_spec (Loop.page_count st) Loop.max_pages); [|lia].
  rewrite Hpass.
  destruct (Nat.ltb_spec (Loop.page_count st1) Loop.max_pages);
    [|subst st1; simpl in *; lia].
  assert (Loop.requests st1 ++ [pp'] = Loop.requests st ++ pp :: [pp']) as Hlog.
  { subst st1. cbn [Loop.requests]. by rewrite <- app_assoc. }
  pose proof (LoopFacts.iteration_page_count params up st1) as Hcount.
  destruct (Loop.iteration params up st1) as [st2|st2|resp st2|e st2];
    cbn [Loop.control_state] in Hsent, Hcount.
  - destruct (LoopFacts.while_loop_total params up fuel st2) as [r Hr].
    { rewrite Hcount. subst st1. cbn [Loop.page_count]. lia. }
    destruct (LoopFacts.while_loop_requests_prefix params up _ _ _ Hr) as [more Hmore].
    exists r, pp', more. split; [exact Hr|]. split; [|exact Hpp'].
    rewrite Hmore, Hsent, Hlog. by rewrite <- app_assoc.
  - exists (Loop.Exited st2), pp', []. cbn [Loop.final]. by rewrite Hsent, Hlog.
  - exists (Loop.Responded resp st2), pp', []. cbn [Loop.final]. by rewrite Hsent, Hlog.
  - exists (Loop.Failed e st2), pp', []. cbn [Loop.final]. by rewrite Hsent, Hlog.
Qed.

Lemma C9_empty_page_with_cursor_continues_witness :
  exists r pp' rest,
    Loop.while_loop sample_params empty_then_data
      (Loop.max_pages - Loop.page_count Loop.init) Loop.init = Some r /\
    Loop.requests (Loop.final r)
    = Loop.requests Loop.init
      ++ {| pp_offset := None; pp_maxRecords := None; pp_filterByFormula := None;
            pp_sort := Some ("Date Created", "desc") |} :: pp' :: rest /\
    pp_offset pp' = Some "itr0".
Proof.
  apply (C9_empty_page_with_cursor_continues sample_params empty_then_data Loop.init
           {| pp_offset := None; pp_maxRecords := None; pp_filterByFormula := None;
              pp_sort := Some ("Date Created", "desc") |}
           {| status_code := 200; error_text := "";
              json := Some {| p_records := []; p_offset := Some "itr0" |} |}
           {| p_records := []; p_offset := Some "itr0" |} "itr0").
  - vm_compute. lia.
  - vm_compute. reflexivity.
  - reflexivity.
  - reflexivity.
  - reflexivity.
  - reflexivity.
  - reflexivity.
  - discriminate.
Defined.

(** ** Flattening *)


(** The second record is dropped as a duplicate of the first. *)
Example shadowed_ids_scenario :
  let h := get_airtable_records Config.ProductionConfig sample_args shadowed_ids
             0 1 SimpleCache.init in
  (fun r : gmap string value => (r !! "id", r !! "Name"))
    <$> Response.records (data_of h)
  = [(Some (VInt 7), Some (VStr "first"))] /\
  Response.duplicates_removed (Response.pagination_info (data_of h)) = 1.
Proof. vm_compute. repeat split. Qed.

(** ** The filter blocklist *)

Module FilterFacts.

Lemma lower_char_not_upper (c : ascii) : Py.is_upper (Py.lower_char c) = false.
Proof. destruct c as [[] [] [] [] [] [] [] []]; reflexivity. Qed.

(** A pattern that begins with an upper-case letter is found in no
    lower-cased text. *)
Lemma upper_pattern_never_found (a : ascii) (pattern' s : string) :
  Py.is_upper a = true ->
  Py.contains (String a pattern') (Py.lower s) = false.
Proof.
  intros Hupper. induction s as [|c s IH]; simpl; [reflexivity|].
  rewrite IH, orb_false_r.
  destruct (ascii_dec a (Py.lower_char c)) as [->|]; [|reflexivity].
  by rewrite lower_char_not_upper in Hupper.
Qed.

(** The two upper-case entries of [dangerous_patterns] are never
    reported. *)
Lemma upper_case_patterns_never_reported (filter_formula : option string) :
  (DangerousPattern "DROP TABLE" ∉ check_filter filter_formula) /\
  (DangerousPattern "DELETE FROM" ∉ check_filter filter_formula).
Proof.
  unfold check_filter.
  destruct (Py.truthy filter_formula); [|split; apply not_elem_of_nil].
  unfold dangerous_patterns. cbn [flat_map].
  rewrite (upper_pattern_never_found "D" "ROP TABLE" _ eq_refl).
  rewrite (upper_pattern_never_found "D" "ELETE FROM" _ eq_refl).
  split; intros Hin;
    repeat match goal with
           | H : _ ∈ _ ++ _ |- _ => apply elem_of_app in H as [H|H]
           | H : _ ∈ (if ?b then _ else _) |- _ => destruct b
           | H : _ ∈ [] |- _ => by apply elem_of_nil in H
           | H : _ ∈ [_] |- _ => apply list_elem_of_singleton in H; discriminate
           end.
Qed.

(** The lower-case entries are found whatever the case of the filter. *)
Lemma lower_case_pattern_reported (filter_formula : string) (pattern : string) :
  pattern ∈ ["javascript:"; "eval("; "script>"] ->
  Py.contains pattern (Py.lower filter_formula) = true ->
  DangerousPattern pattern ∈ check_filter (Some filter_formula).
Proof.
  intros Hpattern Hfound. unfold check_filter.
  assert (Py.truthy (Some filter_formula) = true) as ->.
  { destruct filter_formula; [|reflexivity].
    repeat (apply elem_of_cons in Hpattern as [->|Hpattern]; [discriminate|]).
    by apply elem_of_nil in Hpattern. }
  cbn [Py.or_empty]. apply elem_of_app. left.
  apply list_elem_of_In, in_flat_map. exists pattern. split.
  - repeat (apply elem_of_cons in Hpattern as [->|Hpattern]; [simpl; tauto|]).
    by apply elem_of_nil in Hpattern.
  - rewrite Hfound. by left.
Qed.

End FilterFacts.

(** C4 at the failing input: filters that contain "DROP TABLE", in upper
    case or in lower case, pass validation, and the handler goes on to
    query the upstream with them. *)
Theorem C4_drop_table_passes_validation :
  let args (f : string) :=
    {| baseId := Some "appAAAAAAAAAAAAAA"; tableId := Some "tblcdFVUC3zJrbmNf";
       maxRecords := None; filterByFormula := Some f; sort := None; offset := None |} in
  let h := get_airtable_records Config.ProductionConfig (args "DROP TABLE users")
             three_pages 0 1 SimpleCache.init in
  validate_airtable_params Config.ProductionConfig (Some "appAAAAAAAAAAAAAA")
    (Some "tblcdFVUC3zJrbmNf") None (Some "DROP TABLE users")
  = inr {| base_id := Some "appAAAAAAAAAAAAAA"; table_id := Some "tblcdFVUC3zJrbmNf";
           max_records := None; filter_formula := Some "DROP TABLE users" |} /\
  validate_airtable_params Config.ProductionConfig (Some "appAAAAAAAAAAAAAA")
    (Some "tblcdFVUC3zJrbmNf") None (Some "drop table users")
  = inr {| base_id := Some "appAAAAAAAAAAAAAA"; table_id := Some "tblcdFVUC3zJrbmNf";
           max_records := None; filter_formula := Some "drop table users" |} /\
  validate_airtable_params Config.ProductionConfig (Some "appAAAAAAAAAAAAAA")
    (Some "tblcdFVUC3zJrbmNf") None (Some "EVAL(1)")
  = inl [DangerousPattern "eval("] /\
  snd (response h) = 200 /\
  pp_filterByFormula <$> upstream_requests h
  = [Some "DROP TABLE users"; Some "DROP TABLE users"; Some "DROP TABLE users"].
Proof. vm_compute. repeat split. Qed.

(** * Further properties *)

(** ** Validation *)

Module ValidationMore.

Lemma truthy_Some (v : option string) :
  Py.truthy v = true -> v = Some (Py.or_empty v) /\ Py.or_empty v <> "".
Proof. destruct v as [[|c s]|]; simpl; intros H; try discriminate; done. Qed.

(** The errors reported are the four checks' errors, in the order of the
    source. *)
Lemma reported_eq (AppConfig : Config.t) (b t m f : option string) :
  reported AppConfig b t m f
  = check_identifier "app" BaseIdRequired BaseIdMalformed b
    ++ check_identifier "tbl" TableIdRequired TableIdMalformed t
    ++ snd (check_max_records AppConfig m)
    ++ check_filter f.
Proof.
  unfold reported, validate_airtable_params.
  destruct (check_max_records AppConfig m) as [cap cap_errors]. simpl.
  by destruct (_ ++ _).
Qed.

Lemma elem_of_check_identifier (prefix : string) (required malformed e : validation_error)
    (v : option string) :
  e ∈ check_identifier prefix required malformed v <->
  (e = required /\ Py.truthy v = false) \/
  (e = malformed /\ Py.truthy v = true /\
   (Py.startswith (Py.or_empty v) prefix = false \/
    String.length (Py.or_empty v) <> 17%nat)).
Proof.
  unfold check_identifier.
  destruct v as [s|]; [destruct (decide (s = "")) as [->|Hs]|].
  - cbn. rewrite list_elem_of_singleton. naive_solver.
  - assert (Py.truthy (Some s) = true) as Htruthy by (by destruct s).
    replace (match s with "" => [required] | _ => _ end)
      with (if negb (Py.startswith s prefix) || negb (String.length s =? 17)%nat
            then [malformed] else []) by (by destruct s).
    rewrite Htruthy. cbn [Py.or_empty].
    destruct (Py.startswith s prefix); cbn [negb orb];
      [destruct (Nat.eqb_spec (String.length s) 17); cbn [negb]|];
      rewrite ?list_elem_of_singleton, ?elem_of_nil; naive_solver.
  - cbn. rewrite list_elem_of_singleton. naive_solver.
Qed.

Lemma elem_of_check_max_records (AppConfig : Config.t) (m : option string)
    (e : validation_error) :
  e ∈ snd (check_max_records AppConfig m) <->
  Py.truthy m = true /\
  match Py.int (Py.or_empty m) with
  | None => e = MaxRecordsNotInteger
  | Some n =>
      (e = MaxRecordsNotPositive /\ n <= 0) \/
      (e = MaxRecordsTooLarge (Config.MAX_TOTAL_RECORDS AppConfig) /\
       0 < n /\ Config.MAX_TOTAL_RECORDS AppConfig < n)
  end.
Proof.
  unfold check_max_records.
  destruct (Py.truthy m); simpl; [|rewrite elem_of_nil; by split; [|intros [? _]]].
  destruct (Py.int (Py.or_empty m)) as [n|]; simpl;
    [|rewrite list_elem_of_singleton; by split; [|intros [_ ?]]].
  destruct (Z.leb_spec n 0);
    [|destruct (Z.gtb_spec n (Config.MAX_TOTAL_RECORDS AppConfig))];
    rewrite ?list_elem_of_singleton, ?elem_of_nil.
  - split; [intros ->; eauto|]. intros [_ [[? _]|(_ & ? & _)]]; [done|lia].
  - split; [intros ->; split; [done|]; right; split; [done|lia]|].
    intros [_ [[_ ?]|[? _]]]; [lia|done].
  - split; [done|]. intros [_ [[_ ?]|(_ & _ & ?)]]; lia.
Qed.

Lemma elem_of_check_filter (f : option string) (e : validation_error) :
  e ∈ check_filter f <->
  Py.truthy f = true /\
  ((exists pattern, e = DangerousPattern pattern /\ pattern ∈ dangerous_patterns /\
                    Py.contains pattern (Py.lower (Py.or_empty f)) = true) \/
   (e = FilterTooLong /\ (1000 < String.length (Py.or_empty f))%nat)).
Proof.
  unfold check_filter.
  destruct (Py.truthy f); [|rewrite elem_of_nil; by split; [|intros [? _]]].
  rewrite elem_of_app, list_elem_of_In, in_flat_map.
  split.
  - intros [(pattern & Hin & He)|Hlong]; split; try done.
    + left. exists pattern. apply list_elem_of_In in Hin.
      destruct (Py.contains pattern _); [|destruct He].
      destruct He as [<-|[]]. done.
    + right. destruct (Nat.ltb_spec 1000 (String.length (Py.or_empty f)));
        [|by apply elem_of_nil in Hlong].
      by apply list_elem_of_singleton in Hlong.
  - intros [_ [(pattern & -> & Hin & Hfound)|[-> Hlong]]].
    + left. exists pattern. split; [by apply list_elem_of_In|].
      rewrite Hfound. by left.
    + right. destruct (Nat.ltb_spec 1000 (String.length (Py.or_empty f))); [|lia].
      by apply list_elem_of_singleton.
Qed.

Lemma reported_iff_violated (AppConfig : Config.t)
    (b t m f : option string) (e : validation_error) :
  e ∈ reported AppConfig b t m f <-> violated AppConfig b t m f e.
Proof.
  rewrite reported_eq, !elem_of_app.
  rewrite !elem_of_check_identifier, elem_of_check_max_records, elem_of_check_filter.
  destruct (Py.int (Py.or_empty m)) as [n|] eqn:Hint;
    destruct e; simpl; rewrite ?Hint; naive_solver.
Qed.

(** Acceptance is the absence of errors; the parameters come back as
    given, the cap parsed. *)
Lemma accepted_iff (AppConfig : Config.t) (b t m f : option string)
    (p : validated_params) :
  validate_airtable_params AppConfig b t m f = inr p <->
  reported AppConfig b t m f = [] /\
  p = {| base_id := b; table_id := t;
         max_records := if Py.truthy m then Py.int (Py.or_empty m) else None;
         filter_formula := f |}.
Proof.
  assert (fst (check_max_records AppConfig m)
          = if Py.truthy m then Py.int (Py.or_empty m) else None) as Hcap.
  { unfold check_max_records. destruct (Py.truthy m); [|done].
    by destruct (Py.int (Py.or_empty m)). }
  unfold reported, validate_airtable_params. rewrite <- Hcap.
  destruct (check_max_records AppConfig m) as [cap cap_errors]. simpl.
  destruct (_ ++ _) as [|e errors]; split.
  - by intros [= <-].
  - by intros [_ ->].
  - discriminate.
  - by intros [? _].
Qed.

(** [Py.lower], which lower-cases ASCII text, keeps the length. *)
Lemma lower_length (s : string) : String.length (Py.lower s) = String.length s.
Proof. induction s as [|c s IH]; simpl; congruence. Qed.

Lemma accepted_exactly (AppConfig : Config.t)
    (b t m f : option string) (p : validated_params) :
  validate_airtable_params AppConfig b t m f = inr p <->
  well_formed_id "app" b /\
  well_formed_id "tbl" t /\
  (Py.truthy m = false \/
   exists n, Py.int (Py.or_empty m) = Some n /\
             0 < n <= Config.MAX_TOTAL_RECORDS AppConfig) /\
  (Py.truthy f = false \/
   ((String.length (Py.or_empty f) <= 1000)%nat /\
    forall pattern, pattern ∈ ["javascript:"; "eval("; "script>"] ->
                    Py.contains pattern (Py.lower (Py.or_empty f)) = false)) /\
  p = {| base_id := b; table_id := t;
         max_records := if Py.truthy m then Py.int (Py.or_empty m) else None;
         filter_formula := f |}.
Proof.
  assert (forall prefix v,
            well_formed_id prefix v <->
            Py.truthy v = true /\ Py.startswith (Py.or_empty v) prefix = true /\
            String.length (Py.or_empty v) = 17%nat) as Hid.
  { intros prefix v. unfold well_formed_id. split.
    - intros (s & -> & Hprefix & Hlen). by destruct s.
    - intros (Htruthy & Hprefix & Hlen).
      apply truthy_Some in Htruthy as [-> _]. eauto. }
  split.
  - intros [Hnil ->]%accepted_iff.
    assert (forall e, ~ violated AppConfig b t m f e) as Hnone.
    { intros e He. apply reported_iff_violated in He.
      rewrite Hnil in He. by apply elem_of_nil in He. }
    pose proof (Hnone BaseIdRequired) as Hb1. pose proof (Hnone BaseIdMalformed) as Hb2.
    pose proof (Hnone TableIdRequired) as Ht1. pose proof (Hnone TableIdMalformed) as Ht2.
    pose proof (Hnone MaxRecordsNotPositive) as Hm1.
    pose proof (Hnone (MaxRecordsTooLarge (Config.MAX_TOTAL_RECORDS AppConfig))) as Hm2.
    pose proof (Hnone MaxRecordsNotInteger) as Hm3.
    pose proof (Hnone FilterTooLong) as Hf1.
    pose proof (fun pattern => Hnone (DangerousPattern pattern)) as Hf2.
    cbn [violated] in Hb1, Hb2, Ht1, Ht2, Hm1, Hm2, Hm3, Hf1, Hf2.
    split; [|split; [|split; [|split; [|reflexivity]]]].
    + apply Hid. destruct (Py.truthy b); [|done].
      destruct (Py.startswith (Py.or_empty b) "app"); [|tauto].
      split; [done|]. split; [done|].
      destruct (decide (String.length (Py.or_empty b) = 17%nat)); [done|].
      exfalso. apply Hb2. auto.
    + apply Hid. destruct (Py.truthy t); [|done].
      destruct (Py.startswith (Py.or_empty t) "tbl"); [|tauto].
      split; [done|]. split; [done|].
      destruct (decide (String.length (Py.or_empty t) = 17%nat)); [done|].
      exfalso. apply Ht2. auto.
    + destruct (Py.truthy m); [right|by left].
      destruct (Py.int (Py.or_empty m)) as [n|]; [|tauto].
      exists n. split; [done|].
      destruct (Z.le_gt_cases n 0); [exfalso; apply Hm1; eauto|].
      destruct (Z.le_gt_cases n (Config.MAX_TOTAL_RECORDS AppConfig)); [lia|].
      exfalso. apply Hm2. split; [done|]. split; [done|]. exists n. split; [done|lia].
    + destruct (Py.truthy f); [right|by left]. split.
      { destruct (Nat.le_gt_cases (String.length (Py.or_empty f)) 1000); [done|].
        exfalso. apply Hf1. split; [done|lia]. }
      intros pattern Hin.
      destruct (Py.contains pattern _) eqn:Hfound; [|done].
      exfalso. apply (Hf2 pattern). split; [done|]. split; [|done].
      unfold dangerous_patterns.
      repeat (apply elem_of_cons in Hin as [->|Hin]; [repeat constructor|]).
      by apply elem_of_nil in Hin.
  - intros ((Hb & Hb1 & Hb2)%Hid & (Ht & Ht1 & Ht2)%Hid & Hm & Hf & ->).
    apply accepted_iff. split; [|reflexivity].
    destruct (reported AppConfig b t m f) as [|e errors] eqn:Hrep; [done|].
    exfalso.
    assert (violated AppConfig b t m f e) as He.
    { apply reported_iff_violated. rewrite Hrep. by left. }
    clear Hrep. destruct e; cbn [violated] in He.
    + congruence.
    + destruct He as [_ [?|?]]; congruence.
    + congruence.
    + destruct He as [_ [?|?]]; congruence.
    + destruct He as (Htruthy & n & Hint & Hle).
      destruct Hm as [|(n' & Hint' & ?)]; [congruence|].
      rewrite Hint in Hint'. injection Hint' as <-. lia.
    + destruct He as (-> & Htruthy & n & Hint & Hle).
      destruct Hm as [|(n' & Hint' & ?)]; [congruence|].
      rewrite Hint in Hint'. injection Hint' as <-. lia.
    + destruct He as (Htruthy & Hint). destruct Hm as [|(n' & Hint' & ?)]; congruence.
    + destruct He as (Htruthy & Hin & Hfound). destruct Hf as [|[_ Hf]]; [congruence|].
      unfold dangerous_patterns in Hin.
      apply elem_of_cons in Hin as [->|Hin];
        [rewrite Hf in Hfound by (repeat constructor); discriminate|].
      apply elem_of_cons in Hin as [->|Hin];
        [rewrite Hf in Hfound by (repeat constructor); discriminate|].
      apply elem_of_cons in Hin as [->|Hin];
        [rewrite Hf in Hfound by (repeat constructor); discriminate|].
      apply elem_of_cons in Hin as [->|Hin];
        [by rewrite (FilterFacts.upper_pattern_never_found "D" "ROP TABLE") in Hfound|].
      apply elem_of_cons in Hin as [->|Hin];
        [by rewrite (FilterFacts.upper_pattern_never_found "D" "ELETE FROM") in Hfound|].
      by apply elem_of_nil in Hin.
    + destruct He as (Htruthy & Hlong). destruct Hf as [|[? _]]; [congruence|lia].
Qed.

End ValidationMore.

(** X1: on parameters that are ASCII text, the cap of at most 4300
    characters, [validate_airtable_params] reports every violated rule,
    and only violated rules: a missing or malformed identifier, a cap
    that is not an integer, not positive or above the configured limit, a
    listed pattern found in the lower-cased filter, a filter of more than
    1000 characters. No rule hides another parameter's error. *)
Theorem X1_every_violated_rule_is_reported (AppConfig : Config.t)
    (b t m f : option string) (e : validation_error) :
  ascii_param b -> ascii_param t -> ascii_param m -> ascii_param f ->
  short_numeral m ->
  e ∈ reported AppConfig b t m f <-> violated AppConfig b t m f e.
Proof. intros _ _ _ _ _. apply ValidationMore.reported_iff_violated. Qed.

Lemma X1_every_violated_rule_is_reported_witness :
  let b := Some "appAAAAAAAAAAAAA" in
  let m := Some " 5_000_000 " in
  let f := Some "<SCRIPT>alert(1)</SCRIPT>" in
  MaxRecordsTooLarge 5000 ∈ reported Config.ProductionConfig b None m f
  <-> violated Config.ProductionConfig b None m f (MaxRecordsTooLarge 5000).
Proof.
  intros b m f.
  apply (X1_every_violated_rule_is_reported Config.ProductionConfig b None m f
           (MaxRecordsTooLarge 5000)).
  - reflexivity.
  - exact I.
  - reflexivity.
  - reflexivity.
  - unfold short_numeral, Py.max_str_digits. simpl. lia.
Defined.

(** X2: among the requests whose parameters are ASCII text, the cap of
    at most 4300 characters, [validate_airtable_params] accepts exactly
    those whose identifiers are 17 characters long with the prefixes
    ['app'] and ['tbl'], whose cap is absent (or empty) or an integer from
    1 to [MAX_TOTAL_RECORDS], and whose filter is absent (or empty) or at
    most 1000 characters long with none of ['javascript:'], ['eval('] and
    ['script>'] in its lower-cased text. It returns the parameters as
    given, the cap parsed. *)
Theorem X2_validation_accepts_exactly (AppConfig : Config.t)
    (b t m f : option string) (p : validated_params) :
  ascii_param b -> ascii_param t -> ascii_param m -> ascii_param f ->
  short_numeral m ->
  validate_airtable_params AppConfig b t m f = inr p <->
  well_formed_id "app" b /\
  well_formed_id "tbl" t /\
  (Py.truthy m = false \/
   exists n, Py.int (Py.or_empty m) = Some n /\
             0 < n <= Config.MAX_TOTAL_RECORDS AppConfig) /\
  (Py.truthy f = false \/
   ((String.length (Py.or_empty f) <= 1000)%nat /\
    forall pattern, pattern ∈ ["javascript:"; "eval("; "script>"] ->
                    Py.contains pattern (Py.lower (Py.or_empty f)) = false)) /\
  p = {| base_id := b; table_id := t;
         max_records := if Py.truthy m then Py.int (Py.or_empty m) else None;
         filter_formula := f |}.
Proof. intros _ _ _ _ _. apply ValidationMore.accepted_exactly. Qed.

Lemma X2_validation_accepts_exactly_witness :
  validate_airtable_params Config.TestConfig (Some "appAAAAAAAAAAAAAA")
    (Some "tblcdFVUC3zJrbmNf") (Some "+1_00") (Some "{Status} = 'Open'")
  = inr {| base_id := Some "appAAAAAAAAAAAAAA"; table_id := Some "tblcdFVUC3zJrbmNf";
           max_records := Some 100; filter_formula := Some "{Status} = 'Open'" |}.
Proof.
  apply (X2_validation_accepts_exactly Config.TestConfig (Some "appAAAAAAAAAAAAAA")
           (Some "tblcdFVUC3zJrbmNf") (Some "+1_00") (Some "{Status} = 'Open'")).
  - reflexivity.
  - reflexivity.
  - reflexivity.
  - reflexivity.
  - unfold short_numeral, Py.max_str_digits. simpl. lia.
  - split; [by exists "appAAAAAAAAAAAAAA"|].
    split; [by exists "tblcdFVUC3zJrbmNf"|].
    split; [right; exists 100; split; [reflexivity|simpl; lia]|].
    split; [|reflexivity].
    right. split; [simpl; lia|].
    intros pattern Hin.
    repeat (apply elem_of_cons in Hin as [->|Hin]; [reflexivity|]).
    by apply elem_of_nil in Hin.
Defined.

(** X3: a filter that is ASCII text is checked on its lower-cased text
    and its length only: two such filters that differ in letter case
    alone draw the same errors, whatever the other parameters. *)
Theorem X3_filter_check_ignores_case (AppConfig : Config.t)
    (b t m : option string) (s s' : string) :
  Py.isascii s = true -> Py.isascii s' = true ->
  Py.lower s = Py.lower s' ->
  reported AppConfig b t m (Some s) = reported AppConfig b t m (Some s').
Proof.
  intros _ _ Hlower. rewrite !ValidationMore.reported_eq. do 3 f_equal.
  assert (String.length s = String.length s') as Hlen.
  { by rewrite <- (ValidationMore.lower_length s), Hlower, ValidationMore.lower_length. }
  unfold check_filter. cbn [Py.or_empty]. rewrite Hlower, Hlen.
  destruct s, s'; try discriminate; reflexivity.
Qed.

Lemma X3_filter_check_ignores_case_witness :
  reported Config.ProductionConfig (baseId sample_args) (tableId sample_args) None
    (Some "EVAL(1) <Script>")
  = reported Config.ProductionConfig (baseId sample_args) (tableId sample_args) None
      (Some "eval(1) <script>").
Proof.
  apply (X3_filter_check_ignores_case Config.ProductionConfig (baseId sample_args)
           (tableId sample_args) None "EVAL(1) <Script>" "eval(1) <script>");
    reflexivity.
Defined.

(** X4: the upper-case entries of the blocklist, ['DROP TABLE'] and
    ['DELETE FROM'], are never reported, whatever the filter. *)
Theorem X4_upper_case_patterns_are_never_reported (AppConfig : Config.t)
    (b t m f : option string) :
  (DangerousPattern "DROP TABLE" ∉ reported AppConfig b t m f) /\
  (DangerousPattern "DELETE FROM" ∉ reported AppConfig b t m f).
Proof.
  rewrite !ValidationMore.reported_iff_violated. simpl.
  split; intros (_ & _ & Hfound).
  - by rewrite (FilterFacts.upper_pattern_never_found "D" "ROP TABLE") in Hfound.
  - by rewrite (FilterFacts.upper_pattern_never_found "D" "ELETE FROM") in Hfound.
Qed.

(** X5: a request that fails validation is answered 400 with the errors,
    without any request to the upstream and without touching the cache. *)
Theorem X5_invalid_request_stops_at_validation (AppConfig : Config.t)
    (args : request_args) (up : upstream) (t_lookup t_store : Z)
    (cache0 : SimpleCache.t Response.data) :
  let h := get_airtable_records AppConfig args up t_lookup t_store cache0 in
  let errors := reported AppConfig (baseId args) (tableId args) (maxRecords args)
                  (filterByFormula args) in
  errors <> [] ->
  response h = (Response.Error (Response.ValidationError errors), 400) /\
  upstream_requests h = [] /\
  cache h = cache0.
Proof.
  intros h errors Herrors. subst h errors. unfold reported in *.
  unfold get_airtable_records.
  destruct (validate_airtable_params _ _ _ _ _) as [errors|p]; [done|].
  by destruct Herrors.
Qed.

Lemma X5_invalid_request_stops_at_validation_witness :
  let args := with_cap "0" sample_args in
  let h := get_airtable_records Config.ProductionConfig args endless 0 1
             SimpleCache.init in
  response h = (Response.Error (Response.ValidationError [MaxRecordsNotPositive]), 400) /\
  upstream_requests h = [] /\
  cache h = SimpleCache.init.
Proof.
  intros args h.
  apply (X5_invalid_request_stops_at_validation Config.ProductionConfig args endless
           0 1 SimpleCache.init).
  vm_compute. discriminate.
Defined.

(** ** The cache, further *)

Module CacheMore.
Import SimpleCache.

Lemma set_synced {A : Type} (c : t A) (now : Z) (b tb f : option string)
    (m : option Z) (data : A) :
  cache_synced c -> cache_synced (set c now b tb data f m).
Proof.
  intros Hc k. unfold set. cbn [_cache _timestamps].
  destruct (decide (_generate_key b tb f m = k)) as [->|Hne].
  - rewrite !lookup_insert_eq. split; eauto.
  - rewrite !lookup_insert_ne by done. apply Hc.
Qed.

Lemma get_synced {A : Type} (c : t A) (now ttl : Z) (b tb f : option string)
    (m : option Z) :
  cache_synced c ->
  cache_synced (snd (get c now b tb f m ttl)) /\
  forall e, fst (get c now b tb f m ttl) <> Raise e.
Proof.
  intros Hc. unfold get.
  destruct (_cache c !! _generate_key b tb f m) as [data|] eqn:Hdata; [|done].
  destruct (now - _ >? ttl); [|done].
  destruct (_timestamps c !! _generate_key b tb f m) as [stamp|] eqn:Hstamp.
  - split; [|done]. intros k. cbn [snd _cache _timestamps].
    destruct (decide (_generate_key b tb f m = k)) as [->|Hne].
    + rewrite !lookup_delete_eq. split; intros [? [=]].
    + rewrite !lookup_delete_ne by done. apply Hc.
  - exfalso. assert (is_Some (_timestamps c !! _generate_key b tb f m)) as [? ?];
      [apply Hc; eauto|congruence].
Qed.

(** [set] and [get] leave the entries under other keys as they are. *)
Lemma set_other {A : Type} (c : t A) (now : Z) (b tb f : option string)
    (m : option Z) (data : A) (k : string) :
  k <> _generate_key b tb f m ->
  _cache (set c now b tb data f m) !! k = _cache c !! k /\
  _timestamps (set c now b tb data f m) !! k = _timestamps c !! k.
Proof. intros Hk. unfold set. cbn. by rewrite !lookup_insert_ne. Qed.

Lemma get_other {A : Type} (c : t A) (now ttl : Z) (b tb f : option string)
    (m : option Z) (k : string) :
  k <> _generate_key b tb f m ->
  _cache (snd (get c now b tb f m ttl)) !! k = _cache c !! k /\
  _timestamps (snd (get c now b tb f m ttl)) !! k = _timestamps c !! k.
Proof.
  intros Hk. unfold get.
  destruct (_cache c !! _generate_key b tb f m); [|done].
  destruct (now - _ >? ttl); [|done].
  destruct (_timestamps c !! _generate_key b tb f m); cbn;
    rewrite ?lookup_delete_ne; done.
Qed.

(** What a lookup returns depends on the entry under its key only. *)
Lemma get_result_local {A : Type} (c c' : t A) (now ttl : Z) (b tb f : option string)
    (m : option Z) :
  _cache c !! _generate_key b tb f m = _cache c' !! _generate_key b tb f m ->
  _timestamps c !! _generate_key b tb f m = _timestamps c' !! _generate_key b tb f m ->
  fst (get c now b tb f m ttl) = fst (get c' now b tb f m ttl).
Proof.
  intros Hc Ht. unfold get. rewrite Hc, Ht.
  destruct (_cache c' !! _generate_key b tb f m); [|done].
  destruct (now - _ >? ttl); [|done].
  by destruct (_timestamps c' !! _generate_key b tb f m).
Qed.

End CacheMore.

(** X6: the cache keeps its two dictionaries in step: if payloads and
    timestamps have the same keys, they still do after [set], [get] and
    [clear], as they do in the empty cache; and on such a cache [get]
    never raises. *)
Theorem X6_cache_dictionaries_stay_in_step {A : Type} (c : SimpleCache.t A)
    (now : Z) (b tb f : option string) (m : option Z) (ttl : Z) (data : A) :
  cache_synced c ->
  cache_synced (SimpleCache.set c now b tb data f m) /\
  cache_synced (snd (SimpleCache.get c now b tb f m ttl)) /\
  (forall e, fst (SimpleCache.get c now b tb f m ttl) <> Raise e) /\
  cache_synced (SimpleCache.clear c) /\
  cache_synced (@SimpleCache.init A).
Proof.
  intros Hc.
  split; [by apply CacheMore.set_synced|].
  split; [by apply CacheMore.get_synced|].
  split; [by apply CacheMore.get_synced|].
  split; intros k; cbn; rewrite !lookup_empty; done.
Qed.

Lemma X6_cache_dictionaries_stay_in_step_witness :
  cache_synced
    (SimpleCache.set (SimpleCache.set SimpleCache.init 0 (baseId sample_args)
                        (tableId sample_args) sample_payload None None)
       5 (baseId sample_args) (tableId sample_args) sample_payload None (Some 10)).
Proof.
  apply (X6_cache_dictionaries_stay_in_step
           (SimpleCache.set SimpleCache.init 0 (baseId sample_args)
              (tableId sample_args) sample_payload None None)
           5 (baseId sample_args) (tableId sample_args) None (Some 10) 300 sample_payload).
  apply (X6_cache_dictionaries_stay_in_step SimpleCache.init
           0 (baseId sample_args) (tableId sample_args) None None 300 sample_payload).
  intros k. cbn. by rewrite !lookup_empty.
Defined.

(** X7: storing or looking up one request never changes what a lookup of
    a request with another cache key returns: entries of other keys are
    neither overwritten nor purged, even when they have expired. *)
Theorem X7_other_keys_are_untouched {A : Type} (c : SimpleCache.t A)
    (now now' ttl ttl' : Z) (b tb f b' tb' f' : option string) (m m' : option Z)
    (data : A) :
  SimpleCache._generate_key b' tb' f' m' <> SimpleCache._generate_key b tb f m ->
  fst (SimpleCache.get (SimpleCache.set c now b tb data f m) now' b' tb' f' m' ttl')
  = fst (SimpleCache.get c now' b' tb' f' m' ttl') /\
  fst (SimpleCache.get (snd (SimpleCache.get c now b tb f m ttl)) now' b' tb' f' m' ttl')
  = fst (SimpleCache.get c now' b' tb' f' m' ttl').
Proof.
  intros Hk. split; apply CacheMore.get_result_local.
  - by apply CacheMore.set_other.
  - by apply CacheMore.set_other.
  - by apply CacheMore.get_other.
  - by apply CacheMore.get_other.
Qed.

Lemma X7_other_keys_are_untouched_witness :
  let c := SimpleCache.set SimpleCache.init 0 (baseId sample_args) (tableId sample_args)
             sample_payload None None in
  fst (SimpleCache.get
         (SimpleCache.set c 5 (baseId sample_args) (tableId sample_args)
            (build_response [] [] 2) None (Some 10))
         7 (baseId sample_args) (tableId sample_args) None None 300)
  = fst (SimpleCache.get c 7 (baseId sample_args) (tableId sample_args) None None 300).
Proof.
  intros c.
  apply (X7_other_keys_are_untouched c 5 7 300 300
           (baseId sample_args) (tableId sample_args) None
           (baseId sample_args) (tableId sample_args) None (Some 10) None
           (build_response [] [] 2)).
  vm_compute. discriminate.
Defined.

(** X8: [set] overwrites: after two stores under the same parameters a
    lookup returns the second payload, and the entry lives from the
    second store on, whenever the first one happened. *)
Theorem X8_last_store_wins {A : Type} (c : SimpleCache.t A)
    (first second now ttl : Z) (b tb f : option string) (m : option Z) (d1 d2 : A) :
  now <= second + ttl ->
  fst (SimpleCache.get
         (SimpleCache.set (SimpleCache.set c first b tb d1 f m) second b tb d2 f m)
         now b tb f m ttl)
  = Return (Some d2).
Proof.
  intros Hfresh.
  by rewrite (CacheFacts.get_set_fresh (SimpleCache.set c first b tb d1 f m)).
Qed.

Lemma X8_last_store_wins_witness :
  fst (SimpleCache.get
         (SimpleCache.set
            (SimpleCache.set SimpleCache.init 0 (baseId sample_args)
               (tableId sample_args) sample_payload None None)
            1000 (baseId sample_args) (tableId sample_args) (build_response [] [] 2)
            None None)
         1200 (baseId sample_args) (tableId sample_args) None None 300)
  = Return (Some (build_response [] [] 2)).
Proof.
  apply (X8_last_store_wins SimpleCache.init 0 1000 1200 300 (baseId sample_args)
           (tableId sample_args) None None sample_payload (build_response [] [] 2)).
  lia.
Defined.

(** ** The cache key *)

Module KeyFacts.

Lemma append_inj_length (s1 s2 r1 r2 : string) :
  String.length s1 = String.length s2 ->
  (s1 ++ r1)%string = (s2 ++ r2)%string -> s1 = s2 /\ r1 = r2.
Proof.
  revert s2. induction s1 as [|c s1 IH]; intros [|c' s2] Hlen Heq;
    try discriminate; simpl in *.
  - done.
  - injection Heq as -> Heq. injection Hlen as Hlen.
    destruct (IH _ Hlen Heq) as [-> ->]. done.
Qed.

(** Two texts cut at their last occurrence of [c]. *)
Lemma append_inj_last (c : ascii) (f1 f2 m1 m2 : string) :
  ~ occurs c m1 -> ~ occurs c m2 ->
  (f1 ++ String c m1)%string = (f2 ++ String c m2)%string -> f1 = f2 /\ m1 = m2.
Proof.
  unfold occurs. intros H1 H2. revert f2.
  assert (forall f m, In c (list_ascii_of_string (f ++ String c m)%string)) as Hin.
  { intros f m. induction f; simpl; auto. }
  induction f1 as [|a f1 IH]; intros [|a' f2] Heq; simpl in Heq.
  - by injection Heq as ->.
  - injection Heq as -> ->. exfalso. apply H1, Hin.
  - injection Heq as -> <-. exfalso. apply H2, Hin.
  - injection Heq as -> Heq. destruct (IH _ Heq) as [-> ->]. done.
Qed.

Lemma occurs_string_of_uint (c : ascii) (d : Decimal.uint) :
  occurs c (NilEmpty.string_of_uint d) -> Py.is_digit c = true.
Proof.
  unfold occurs. induction d; simpl; intros H; try done;
    destruct H as [<-|H]; auto.
Qed.

(** [str(n)] is made of digits and the minus sign. *)
Lemma occurs_str_int (c : ascii) (n : Z) :
  occurs c (Py.str_int n) -> Py.is_digit c = true \/ c = "-"%char.
Proof.
  unfold Py.str_int, NilZero.string_of_int, NilZero.string_of_uint.
  assert (forall d, occurs c match d with
                             | Decimal.Nil => "0"
                             | _ => NilEmpty.string_of_uint d
                             end -> Py.is_digit c = true) as Huint.
  { intros d Hd. destruct d; try exact (occurs_string_of_uint c _ Hd).
    unfold occurs in Hd. simpl in Hd. by destruct Hd as [<-|[]]. }
  destruct (Z.to_int n) as [d|d].
  - intros H. left. by apply (Huint d).
  - unfold occurs. simpl. intros [<-|H]; [by right|]. left. by apply (Huint d).
Qed.

Lemma str_int_inj (n n' : Z) : Py.str_int n = Py.str_int n' -> n = n'.
Proof.
  unfold Py.str_int. intros Heq.
  assert (forall z, NilZero.int_of_string (NilZero.string_of_int (Z.to_int z))
                    = Some (Z.to_int z)) as Hparse.
  { intros z. apply NilZero.isi; destruct z; simpl; try discriminate;
      intros [= H]; by apply DecimalPos.Unsigned.to_uint_nonnil in H. }
  apply DecimalZ.to_int_inj.
  pose proof (Hparse n) as Hn. rewrite Heq, Hparse in Hn. by injection Hn.
Qed.

Lemma format_opt_int_inj (m m' : option Z) :
  Py.format_opt_int m = Py.format_opt_int m' -> m = m'.
Proof.
  assert (forall n, Py.str_int n <> "None") as Hnone.
  { intros n Heq.
    destruct (occurs_str_int "N" n) as [H|H]; try discriminate.
    rewrite Heq. unfold occurs. simpl. auto. }
  destruct m as [n|], m' as [n'|]; simpl; intros Heq.
  - f_equal. by apply str_int_inj.
  - by apply Hnone in Heq.
  - symmetry in Heq. by apply Hnone in Heq.
  - done.
Qed.

Lemma format_opt_int_no_colon (m : option Z) : ~ occurs ":" (Py.format_opt_int m).
Proof.
  destruct m as [n|]; simpl.
  - intros [H|H]%occurs_str_int; discriminate.
  - unfold occurs. simpl. intuition discriminate.
Qed.

(** The text hashed into the key determines the parameters, for
    identifiers of the validated length. *)
Lemma key_data_inj (b tb b' tb' : string) (f f' : option string) (m m' : option Z) :
  String.length b = String.length b' -> String.length tb = String.length tb' ->
  SimpleCache.key_data (Some b) (Some tb) f m
  = SimpleCache.key_data (Some b') (Some tb') f' m' ->
  b = b' /\ tb = tb' /\ m = m' /\
  (if Py.truthy f then Py.or_empty f else "")
  = (if Py.truthy f' then Py.or_empty f' else "").
Proof.
  intros Hb Htb.
  assert (forall b tb f m,
            SimpleCache.key_data (Some b) (Some tb) f m
            = (b ++ String ":"
                 (tb ++ String ":"
                    ((if Py.truthy f then Py.or_empty f else "")
                     ++ String ":" (Py.format_opt_int m))))%string) as Hshape
    by reflexivity.
  rewrite !Hshape. intros Heq.
  apply append_inj_length in Heq as [-> Heq]; [|done].
  injection Heq as Heq.
  apply append_inj_length in Heq as [-> Heq]; [|done].
  injection Heq as Heq.
  apply append_inj_last in Heq as [Hf Hm]; try apply format_opt_int_no_colon.
  apply format_opt_int_inj in Hm. done.
Qed.

End KeyFacts.

(** X9: the text hashed into the cache key tells validated requests
    apart: two validated parameter sets with the same key text have the
    same base, table and cap, and the same filter (an absent filter and an
    empty one counting as the same). Two requests can thus share a cache
    entry only if they agree on all four, or if MD5 collides. *)
Theorem X9_key_text_determines_the_request (AppConfig AppConfig' : Config.t)
    (b t m f b' t' m' f' : option string) (p p' : validated_params) :
  validate_airtable_params AppConfig b t m f = inr p ->
  validate_airtable_params AppConfig' b' t' m' f' = inr p' ->
  SimpleCache.key_data (base_id p) (table_id p) (filter_formula p) (max_records p)
  = SimpleCache.key_data (base_id p') (table_id p') (filter_formula p') (max_records p') ->
  base_id p = base_id p' /\ table_id p = table_id p' /\
  max_records p = max_records p' /\
  Py.or_empty (filter_formula p) = Py.or_empty (filter_formula p').
Proof.
  intros ((sb & -> & _ & Hlb) & (st & -> & _ & Hlt) & _ & _ & ->)
           %ValidationMore.accepted_exactly.
  intros ((sb' & -> & _ & Hlb') & (st' & -> & _ & Hlt') & _ & _ & ->)
           %ValidationMore.accepted_exactly.
  cbn [base_id table_id filter_formula max_records].
  intros (-> & -> & -> & Hf)%KeyFacts.key_data_inj; [|congruence|congruence].
  repeat split.
  destruct f as [[|? ?]|], f' as [[|? ?]|]; simpl in *; congruence.
Qed.

Lemma X9_key_text_determines_the_request_witness :
  let p := {| base_id := baseId sample_args; table_id := tableId sample_args;
              max_records := Some 10; filter_formula := Some "" |} in
  let p' := {| base_id := baseId sample_args; table_id := tableId sample_args;
               max_records := Some 10; filter_formula := None |} in
  base_id p = base_id p' /\ table_id p = table_id p' /\
  max_records p = max_records p' /\
  Py.or_empty (filter_formula p) = Py.or_empty (filter_formula p').
Proof.
  intros p p'.
  apply (X9_key_text_determines_the_request Config.ProductionConfig Config.TestConfig
           (baseId sample_args) (tableId sample_args) (Some "10") (Some "")
           (baseId sample_args) (tableId sample_args) (Some " 1_0") None p p').
  - vm_compute. reflexivity.
  - vm_compute. reflexivity.
  - vm_compute. reflexivity.
Defined.

(** ** The handler, further *)

Module HandlerMore.

Lemma while_loop_S (params : validated_params) (up : upstream) (fuel : nat)
    (st : Loop.state) :
  Loop.while_loop params up (S fuel) st
  = if (Loop.page_count st <? Loop.max_pages)%nat
    then match Loop.iteration params up st with
         | Loop.Continue st' => Loop.while_loop params up fuel st'
         | Loop.Break st' => Some (Loop.Exited st')
         | Loop.ReturnResponse r st' => Some (Loop.Responded r st')
         | Loop.Raises e st' => Some (Loop.Failed e st')
         end
    else Some (Loop.Exited st).
Proof. reflexivity. Qed.

(** With validated parameters the first pass of the loop sends a page
    request. *)
Lemma first_request_sent (AppConfig : Config.t) (b t m f : option string)
    (params : validated_params) (up : upstream) :
  validate_airtable_params AppConfig b t m f = inr params ->
  exists pp rest,
    Loop.requests (Loop.final (Loop.run params up)) = pp :: rest.
Proof.
  intros Hvalid.
  assert (exists pp, Loop.build_page_params params Loop.init = Some pp) as [pp Hpp].
  { unfold Loop.build_page_params.
    destruct (max_records params) as [cap|] eqn:Hcap; [|eauto].
    pose proof (ValidationFacts.validated_cap _ _ _ _ _ _ _ Hvalid Hcap) as Hpos.
    cbn [Loop.all_records Loop.init length].
    destruct (Z.leb_spec (cap - Z.of_nat 0) 0); [lia|eauto]. }
  destruct (LoopFacts.run_eq params up) as (r & Hloop & ->).
  pose proof (LoopFacts.iteration_requests params up Loop.init) as Hsent.
  rewrite Hpp in Hsent. cbn [Loop.requests Loop.init app] in Hsent.
  change (Loop.while_loop params up Loop.max_pages Loop.init)
    with (Loop.while_loop params up (S 99) Loop.init) in Hloop.
  rewrite while_loop_S in Hloop.
  change (Loop.page_count Loop.init <? Loop.max_pages)%nat with true in Hloop.
  cbn beta iota in Hloop.
  destruct (Loop.iteration params up Loop.init) as [st|st|resp st|e st];
    cbn [Loop.control_state] in Hsent.
  - destruct (LoopFacts.while_loop_requests_prefix params up _ _ _ Hloop) as [more ->].
    rewrite Hsent. eauto.
  - injection Hloop as <-. eauto.
  - injection Hloop as <-. eauto.
  - injection Hloop as <-. eauto.
Qed.

(** The paths of the handler once validation has passed. *)
Lemma handled_cases (AppConfig : Config.t) (args : request_args) (up : upstream)
    (t_lookup t_store : Z) (cache0 : SimpleCache.t Response.data)
    (params : validated_params) :
  let h := get_airtable_records AppConfig args up t_lookup t_store cache0 in
  validate_airtable_params AppConfig (baseId args) (tableId args)
    (maxRecords args) (filterByFormula args) = inr params ->
  match fst (cache_lookup cache0 t_lookup params) with
  | Raise e =>
      response h = (Response.Error (Response.Unexpected e), 500) /\
      upstream_requests h = [] /\
      cache h = snd (cache_lookup cache0 t_lookup params)
  | Return (Some d) =>
      response h = (Response.Data d, 200) /\ upstream_requests h = [] /\
      cache h = cache0
  | Return None =>
      upstream_requests h = Loop.requests (Loop.final (Loop.run params up)) /\
      ((exists d,
          response h = (Response.Data d, 200) /\
          cache h = SimpleCache.set (snd (cache_lookup cache0 t_lookup params)) t_store
                      (base_id params) (table_id params) d
                      (filter_formula params) (max_records params)) \/
       ((exists message, response h = (Response.Error message, 502) \/
                         response h = (Response.Error message, 500)) /\
        cache h = snd (cache_lookup cache0 t_lookup params)))
  end.
Proof.
  intros h Hvalid. subst h. unfold cache_lookup, cache_ttl, get_airtable_records.
  rewrite Hvalid.
  destruct (SimpleCache.get _ _ _ _ _ _ _) as [o cache1] eqn:Hget.
  destruct (CacheFacts.get_returns _ _ _ _ _ _ _ _ _ Hget) as (_ & Hhit & _).
  destruct o as [[d|]|e]; cbn [fst snd].
  - destruct (Hhit d eq_refl) as [-> _]. done.
  - destruct (Loop.run params up) as [st|r st|e st] eqn:Hrun; cbn [Loop.final].
    + destruct (Dedup.unique_records _) as [unique|e];
        cbn [response cache upstream_requests]; split; eauto.
    + destruct (HandlerFacts.run_responded _ _ _ _ Hrun) as [text ->].
      cbn [response cache upstream_requests]. split; eauto.
    + cbn [response cache upstream_requests]. split; eauto.
  - done.
Qed.

End HandlerMore.

(** X10: when the cache lookup of a validated request hits, the cached
    payload is returned as it is with status 200, no request is sent to
    the upstream, and the cache is left unchanged. *)
Theorem X10_cache_hit_is_served_verbatim (AppConfig : Config.t) (args : request_args)
    (up : upstream) (t_lookup t_store : Z) (cache0 : SimpleCache.t Response.data)
    (params : validated_params) (d : Response.data) :
  let h := get_airtable_records AppConfig args up t_lookup t_store cache0 in
  validate_airtable_params AppConfig (baseId args) (tableId args)
    (maxRecords args) (filterByFormula args) = inr params ->
  fst (cache_lookup cache0 t_lookup params) = Return (Some d) ->
  response h = (Response.Data d, 200) /\ upstream_requests h = [] /\ cache h = cache0.
Proof.
  intros h Hvalid Hhit.
  pose proof (HandlerMore.handled_cases AppConfig args up t_lookup t_store cache0
                params Hvalid) as Hcases.
  by rewrite Hhit in Hcases.
Qed.

Lemma X10_cache_hit_is_served_verbatim_witness :
  let cache0 := SimpleCache.set SimpleCache.init 0 (baseId sample_args)
                  (tableId sample_args) sample_payload None None in
  let h := get_airtable_records Config.ProductionConfig sample_args unreachable
             100 101 cache0 in
  response h = (Response.Data sample_payload, 200) /\
  upstream_requests h = [] /\ cache h = cache0.
Proof.
  intros cache0 h.
  apply (X10_cache_hit_is_served_verbatim Config.ProductionConfig sample_args
           unreachable 100 101 cache0 sample_params sample_payload).
  - vm_compute. reflexivity.
  - vm_compute. reflexivity.
Defined.

(** X11: a response aggregated from the upstream is stored, and a later
    identical request that looks the cache up no later than the
    time-to-live after the store (60 with a filter, 300 without) gets the
    same payload with status 200, whatever the upstream would answer, and
    sends it no request. *)
Theorem X11_aggregated_response_is_served_again (AppConfig : Config.t)
    (args : request_args) (up up' : upstream) (t_lookup t_store t_lookup' t_store' : Z)
    (cache0 : SimpleCache.t Response.data) (params : validated_params)
    (d : Response.data) :
  let h := get_airtable_records AppConfig args up t_lookup t_store cache0 in
  let h' := get_airtable_records AppConfig args up' t_lookup' t_store' (cache h) in
  validate_airtable_params AppConfig (baseId args) (tableId args)
    (maxRecords args) (filterByFormula args) = inr params ->
  response h = (Response.Data d, 200) ->
  upstream_requests h <> [] ->
  t_lookup' <= t_store + cache_ttl params ->
  response h' = (Response.Data d, 200) /\ upstream_requests h' = [] /\
  cache h' = cache h.
Proof.
  intros h h' Hvalid Hdata Hsent Hfresh.
  pose proof (HandlerMore.handled_cases AppConfig args up t_lookup t_store cache0
                params Hvalid) as Hcases.
  fold h in Hcases.
  destruct (fst (cache_lookup cache0 t_lookup params)) as [[d0|]|e].
  - destruct Hcases as (_ & Hnone & _). contradiction.
  - destruct Hcases as [_ [(d1 & Hresp & Hcache)|[[message [Hresp|Hresp]] _]]];
      rewrite Hresp in Hdata; try discriminate.
    injection Hdata as ->.
    pose proof (HandlerMore.handled_cases AppConfig args up' t_lookup' t_store'
                  (cache h) params Hvalid) as Hcases'.
    fold h' in Hcases'.
    assert (fst (cache_lookup (cache h) t_lookup' params) = Return (Some d)) as Hhit.
    { rewrite Hcache. unfold cache_lookup. by rewrite CacheFacts.get_set_fresh. }
    by rewrite Hhit in Hcases'.
  - destruct Hcases as (_ & Hnone & _). contradiction.
Qed.

Lemma X11_aggregated_response_is_served_again_witness :
  let h := get_airtable_records Config.ProductionConfig sample_args duplicate_pages
             0 10 SimpleCache.init in
  let h' := get_airtable_records Config.ProductionConfig sample_args unreachable
              310 311 (cache h) in
  response h' = (Response.Data (data_of h), 200) /\ upstream_requests h' = [] /\
  cache h' = cache h.
Proof.
  intros h h'.
  apply (X11_aggregated_response_is_served_again Config.ProductionConfig sample_args
           duplicate_pages unreachable 0 10 310 311 SimpleCache.init sample_params
           (data_of h)).
  - vm_compute. reflexivity.
  - vm_compute. reflexivity.
  - vm_compute. discriminate.
  - vm_compute. discriminate.
Defined.

(** X12: once the time-to-live after the store has passed, the same
    request is no longer served from the cache: the handler queries the
    upstream again. *)
Theorem X12_expired_response_is_fetched_again (AppConfig : Config.t)
    (args : request_args) (up up' : upstream) (t_lookup t_store t_lookup' t_store' : Z)
    (cache0 : SimpleCache.t Response.data) (params : validated_params)
    (d : Response.data) :
  let h := get_airtable_records AppConfig args up t_lookup t_store cache0 in
  let h' := get_airtable_records AppConfig args up' t_lookup' t_store' (cache h) in
  validate_airtable_params AppConfig (baseId args) (tableId args)
    (maxRecords args) (filterByFormula args) = inr params ->
  response h = (Response.Data d, 200) ->
  upstream_requests h <> [] ->
  t_store + cache_ttl params < t_lookup' ->
  upstream_requests h' = Loop.requests (Loop.final (Loop.run params up')) /\
  upstream_requests h' <> [].
Proof.
  intros h h' Hvalid Hdata Hsent Hold.
  pose proof (HandlerMore.handled_cases AppConfig args up t_lookup t_store cache0
                params Hvalid) as Hcases.
  fold h in Hcases.
  assert (cache h = SimpleCache.set (snd (cache_lookup cache0 t_lookup params)) t_store
                      (base_id params) (table_id params) d
                      (filter_formula params) (max_records params)) as Hcache.
  { destruct (fst (cache_lookup cache0 t_lookup params)) as [[d0|]|e].
    - destruct Hcases as (_ & Hnone & _). contradiction.
    - destruct Hcases as [_ [(d1 & Hresp & Hcache)|[[message [Hresp|Hresp]] _]]];
        rewrite Hresp in Hdata; try discriminate.
      by injection Hdata as ->.
    - destruct Hcases as (_ & Hnone & _). contradiction. }
  pose proof (HandlerMore.handled_cases AppConfig args up' t_lookup' t_store'
                (cache h) params Hvalid) as Hcases'.
  fold h' in Hcases'.
  assert (fst (cache_lookup (cache h) t_lookup' params) = Return None) as Hmiss.
  { rewrite Hcache. unfold cache_lookup. by rewrite CacheFacts.get_set_expired. }
  rewrite Hmiss in Hcases'. destruct Hcases' as [Hreq _].
  split; [exact Hreq|]. rewrite Hreq.
  destruct (HandlerMore.first_request_sent _ _ _ _ _ _ up' Hvalid) as (pp & rest & ->).
  discriminate.
Qed.

Lemma X12_expired_response_is_fetched_again_witness :
  let h := get_airtable_records Config.ProductionConfig sample_args duplicate_pages
             0 10 SimpleCache.init in
  let h' := get_airtable_records Config.ProductionConfig sample_args unreachable
              311 312 (cache h) in
  upstream_requests h' = Loop.requests (Loop.final (Loop.run sample_params unreachable)) /\
  upstream_requests h' <> [].
Proof.
  intros h h'.
  apply (X12_expired_response_is_fetched_again Config.ProductionConfig sample_args
           duplicate_pages unreachable 0 10 311 312 SimpleCache.init sample_params
           (data_of h)).
  - vm_compute. reflexivity.
  - vm_compute. reflexivity.
  - vm_compute. discriminate.
  - vm_compute. reflexivity.
Defined.

(** X13: the records endpoint answers with status 200, 400, 500 or 502
    and nothing else; the body holds data exactly when the status is 200;
    and a response with another status adds no entry to the cache. *)
Theorem X13_statuses_and_what_is_stored (AppConfig : Config.t) (args : request_args)
    (up : upstream) (t_lookup t_store : Z) (cache0 : SimpleCache.t Response.data) :
  let h := get_airtable_records AppConfig args up t_lookup t_store cache0 in
  (snd (response h) = 200 \/ snd (response h) = 400 \/
   snd (response h) = 500 \/ snd (response h) = 502) /\
  (snd (response h) = 200 <-> exists d, fst (response h) = Response.Data d) /\
  (snd (response h) <> 200 ->
   forall k d, SimpleCache._cache (cache h) !! k = Some d ->
               SimpleCache._cache cache0 !! k = Some d).
Proof.
  intros h. subst h.
  handler_cases; cbn [response cache fst snd].
  - split; [auto|]. split; [split; [discriminate|intros [? [=]]]|auto].
  - destruct (CacheFacts.get_returns _ _ _ _ _ _ _ _ _ Hget) as (Hsub & _).
    split; [auto|]. split; [split; eauto|done].
  - split; [auto|]. split; [split; eauto|done].
  - destruct (CacheFacts.get_returns _ _ _ _ _ _ _ _ _ Hget) as (Hsub & _).
    split; [auto|]. split; [split; [discriminate|intros [? [=]]]|auto].
  - destruct (CacheFacts.get_returns _ _ _ _ _ _ _ _ _ Hget) as (Hsub & _).
    destruct (HandlerFacts.run_responded _ _ _ _ Hrun) as [text ->]. cbn [fst snd].
    split; [auto|]. split; [split; [discriminate|intros [? [=]]]|auto].
  - destruct (CacheFacts.get_returns _ _ _ _ _ _ _ _ _ Hget) as (Hsub & _).
    split; [auto|]. split; [split; [discriminate|intros [? [=]]]|auto].
  - destruct (CacheFacts.get_returns _ _ _ _ _ _ _ _ _ Hget) as (Hsub & _).
    split; [auto|]. split; [split; [discriminate|intros [? [=]]]|auto].
Qed.

(** X14: when the loop has ended normally and one of the accumulated
    records carries an identifier that is a JSON array or object, the
    deduplication raises and the endpoint answers 500; nothing is stored. *)
Theorem X14_unhashable_identifier_is_a_500 (AppConfig : Config.t) (args : request_args)
    (up : upstream) (t_lookup t_store : Z) (cache0 : SimpleCache.t Response.data)
    (params : validated_params) (st : Loop.state) (record : gmap string value)
    (json : string) :
  let h := get_airtable_records AppConfig args up t_lookup t_store cache0 in
  validate_airtable_params AppConfig (baseId args) (tableId args)
    (maxRecords args) (filterByFormula args) = inr params ->
  fst (cache_lookup cache0 t_lookup params) = Return None ->
  Loop.run params up = Loop.Exited st ->
  record ∈ Loop.all_records st ->
  record_id record = VCompound json ->
  response h = (Response.Error (Response.Unexpected TypeError), 500) /\
  cache h = snd (cache_lookup cache0 t_lookup params).
Proof.
  intros h Hvalid Hmiss Hrun Hin Hid. subst h.
  unfold cache_lookup, cache_ttl in *. unfold get_airtable_records.
  rewrite Hvalid.
  destruct (SimpleCache.get _ _ _ _ _ _ _) as [o cache1]. cbn [fst snd] in *.
  subst o. rewrite Hrun.
  unfold Dedup.unique_records.
  destruct (Dedup.for_each (Loop.all_records st) (∅, [])) as [[seen unique]|e] eqn:Hfor.
  - exfalso. apply DedupFacts.for_each_first_occurrences in Hfor as [_ Hall].
    rewrite Forall_forall in Hall. destruct (Hall record Hin) as [k Hk].
    unfold DedupSpec.key in Hk. rewrite Hid in Hk. discriminate.
  - apply DedupFacts.for_each_unhashable in Hfor as ->. done.
Qed.

Lemma X14_unhashable_identifier_is_a_500_witness :
  let h := get_airtable_records Config.ProductionConfig sample_args array_id
             0 1 SimpleCache.init in
  response h = (Response.Error (Response.Unexpected TypeError), 500) /\
  cache h = snd (cache_lookup SimpleCache.init 0 sample_params).
Proof.
  intros h.
  apply (X14_unhashable_identifier_is_a_500 Config.ProductionConfig sample_args
           array_id 0 1 SimpleCache.init sample_params
           (Loop.final (Loop.run sample_params array_id))
           {["createdTime" := VStr "2024-01-01"; "id" := VCompound "[1, 2]"]}
           "[1, 2]").
  - vm_compute. reflexivity.
  - vm_compute. reflexivity.
  - vm_compute. reflexivity.
  - vm_compute. left.
  - vm_compute. reflexivity.
Defined.

(** ** The pagination loop, further *)

Module LoopMore.
Import Loop.

Lemma follows_app (up : upstream) (log more : list page_params) (i : nat)
    (cursor : option string) :
  (i <= length log)%nat -> follows up log i cursor -> follows up (log ++ more) i cursor.
Proof.
  destruct i as [|j]; [done|]. simpl.
  intros Hj (previous & response & data & Hlook & Hrest).
  exists previous, response, data. split; [|done].
  by apply lookup_app_l_Some.
Qed.

Lemma append_flattened_app (page_records : list upstream_record) :
  forall all all',
    append_flattened all page_records = Return all' ->
    exists flats, all' = all ++ flats /\
                  Forall2 (fun record flat => flatten record = Return flat)
                          page_records flats.
Proof.
  induction page_records as [|record rest IH]; simpl; intros all all' Hrun.
  - injection Hrun as <-. exists []. by rewrite app_nil_r.
  - destruct (flatten record) as [flat|e] eqn:Hflat; simpl in Hrun; [|discriminate].
    destruct (IH _ _ Hrun) as (flats & -> & Hall).
    exists (flat :: flats). rewrite <- app_assoc. split; [done|]. by constructor.
Qed.

Lemma append_flattened_succeeds (page_records : list upstream_record) :
  Forall (fun record => exists flat, flatten record = Return flat) page_records ->
  forall all, exists all', append_flattened all page_records = Return all'.
Proof.
  induction 1 as [|record rest [flat Hflat] _ IH]; simpl; intros all; [eauto|].
  rewrite Hflat. simpl. apply IH.
Qed.

Section WithRequest.

Variable params : validated_params.
Variable up : upstream.

(** Case analysis on the body of the loop. *)
Ltac pass_cases st :=
  unfold iteration; simpl;
  destruct (build_page_params params _) as [pp|] eqn:Hpp; simpl;
  [ destruct (up (length (requests st)) pp) as [e text|response] eqn:Hup; simpl;
    [ | destruct (raise_for_status response) eqn:Hstatus; simpl;
        [ | destruct (json response) as [data|] eqn:Hjson; simpl;
            [ destruct (append_flattened (all_records st) (p_records data))
                as [all'|e] eqn:Happ; simpl;
              [ destruct (Py.truthy (p_offset data)) eqn:Hcursor; simpl | ]
            | ] ] ]
  | ].

(** What [build_page_params] builds. *)
Lemma build_page_params_shape (st : state) (pp : page_params) :
  build_page_params params st = Some pp ->
  well_shaped params pp /\
  pp_offset pp = if Py.truthy (offset st) then offset st else None.
Proof.
  unfold build_page_params, well_shaped.
  destruct (max_records params) as [cap|].
  - destruct (Z.leb_spec (cap - Z.of_nat (length (all_records st))) 0);
      [discriminate|].
    intros [= <-]. cbn. repeat split. eexists. split; [done|]. lia.
  - intros [= <-]. cbn. done.
Qed.

(** The log stays in order, and [offset] holds the cursor due next. *)
Lemma while_loop_requests_ok (fuel : nat) (st : state) (r : result) :
  while_loop params up fuel st = Some r ->
  requests_ok params up (requests st) ->
  follows up (requests st) (length (requests st)) (offset st) ->
  requests_ok params up (requests (final r)).
Proof.
  intros Hrun Hok Hnext.
  refine (LoopFacts.while_loop_inv params up
            (fun st => requests_ok params up (requests st) /\
                       follows up (requests st) (length (requests st)) (offset st))
            (fun r => requests_ok params up (requests (final r)))
            _ _ fuel st r Hrun (conj Hok Hnext)).
  - intros st' [H _] _. exact H.
  - clear. intros st [Hok Hnext] _.
    assert (forall pp,
              build_page_params params
                {| all_records := all_records st; offset := offset st;
                   page_count := S (page_count st); requests := requests st |}
              = Some pp ->
              requests_ok params up (requests st ++ [pp])) as Hsent.
    { intros pp [Hshape Hoffset]%build_page_params_shape. cbn in Hoffset.
      assert (follows up (requests st) (length (requests st)) (pp_offset pp)) as Hpp.
      { rewrite Hoffset. destruct (length (requests st)) as [|j]; simpl in *.
        - by rewrite Hnext.
        - destruct Hnext as (previous & response & data & H1 & H2 & H3 & H4 & H5 & H6).
          exists previous, response, data. rewrite H6, H5. done. }
      intros i pp' Hlook.
      apply lookup_app_Some in Hlook as [Hold|[Hi Hnew]].
      - destruct (Hok i pp' Hold) as [? ?]. split; [done|].
        apply follows_app; [|done]. apply lookup_lt_Some in Hold. lia.
      - apply list_lookup_singleton_Some in Hnew as [Hi' <-].
        replace i with (length (requests st)) by lia.
        split; [done|]. by apply follows_app. }
    pass_cases st; try (by apply Hsent); try exact Hok.
    split; [by apply Hsent|].
    rewrite length_app. cbn [length]. rewrite Nat.add_1_r. cbn [follows].
    exists pp, response, data. split; [|done].
    rewrite lookup_app_r by lia. by rewrite Nat.sub_diag.
Qed.

(** The records accumulated are the flattened records received, in the
    order received. *)
Lemma while_loop_received (fuel : nat) (st : state) (r : result) :
  while_loop params up fuel st = Some r ->
  Forall2 (fun record flat => flatten record = Return flat)
          (received up (requests st)) (all_records st) ->
  match r with
  | Exited st' =>
      Forall2 (fun record flat => flatten record = Return flat)
              (received up (requests st')) (all_records st')
  | _ => True
  end.
Proof.
  apply (LoopFacts.while_loop_inv params up
           (fun st => Forall2 (fun record flat => flatten record = Return flat)
                              (received up (requests st)) (all_records st))
           (fun r => match r with
                     | Exited st' =>
                         Forall2 (fun record flat => flatten record = Return flat)
                                 (received up (requests st')) (all_records st')
                     | _ => True
                     end)).
  - intros st' H _. exact H.
  - intros st' Hinv _.
    assert (forall pp response data all',
              up (length (requests st')) pp = Responds response ->
              raise_for_status response = false ->
              json response = Some data ->
              append_flattened (all_records st') (p_records data) = Return all' ->
              Forall2 (fun record flat => flatten record = Return flat)
                      (received up (requests st' ++ [pp])) all') as Hpage.
    { intros pp response data all' Hup Hstatus Hjson Happ.
      apply append_flattened_app in Happ as (flats & -> & Hflats).
      unfold received in *. rewrite imap_app, concat_app. cbn.
      rewrite Nat.add_0_r, Hup. cbn. rewrite Hstatus, Hjson, app_nil_r.
      by apply Forall2_app. }
    pass_cases st'; eauto.
Qed.

(** Against an upstream that always has more, without a cap, the loop
    uses every pass it is allowed. *)
Lemma while_loop_always_more (fuel : nat) :
  always_more up -> max_records params = None ->
  forall st,
    (page_count st + fuel = max_pages)%nat ->
    length (requests st) = page_count st ->
    exists st', while_loop params up fuel st = Some (Exited st') /\
                page_count st' = max_pages /\
                length (requests st') = max_pages.
Proof.
  intros Hmore Hcap.
  induction fuel as [|fuel IH]; intros st Hcount Hlen; simpl.
  - destruct (Nat.ltb_spec (page_count st) max_pages); [lia|].
    exists st. split; [done|]. lia.
  - destruct (Nat.ltb_spec (page_count st) max_pages); [|lia].
    assert (exists st1, iteration params up st = Continue st1 /\
                        page_count st1 = S (page_count st) /\
                        length (requests st1) = S (length (requests st)))
      as (st1 & -> & Hcount1 & Hlen1).
    { unfold iteration, build_page_params. rewrite Hcap. cbn.
      match goal with
      | |- context [up ?n ?pp] =>
          destruct (Hmore n pp) as (response & data & -> & -> & -> & -> & Hflat)
      end.
      destruct (append_flattened_succeeds _ Hflat (all_records st)) as [all' ->].
      eexists. split; [reflexivity|]. cbn. rewrite length_app. cbn. lia. }
    apply IH; lia.
Qed.

End WithRequest.

End LoopMore.

(** X15: every page request the handler sends carries the request's
    filter (when there is one) and the sort directive of the table's
    configuration, asks for no limit when no cap was given and otherwise
    for a limit between 1 and 100 that does not exceed the cap; the first
    request carries no cursor, and each later one carries the cursor of
    the page that answered the request before it. *)
Theorem X15_page_requests_are_chained (AppConfig : Config.t) (args : request_args)
    (up : upstream) (t_lookup t_store : Z) (cache0 : SimpleCache.t Response.data)
    (params : validated_params) (i : nat) (pp : page_params) :
  let h := get_airtable_records AppConfig args up t_lookup t_store cache0 in
  validate_airtable_params AppConfig (baseId args) (tableId args)
    (maxRecords args) (filterByFormula args) = inr params ->
  upstream_requests h !! i = Some pp ->
  well_shaped params pp /\ follows up (upstream_requests h) i (pp_offset pp).
Proof.
  intros h Hvalid Hlook.
  assert (requests_ok params up (Loop.requests (Loop.final (Loop.run params up))))
    as Hok.
  { destruct (LoopFacts.run_eq params up) as (r & Hloop & ->).
    apply (LoopMore.while_loop_requests_ok params up _ _ _ Hloop); [|done].
    intros j pp' Hj. cbn in Hj. discriminate. }
  pose proof (HandlerMore.handled_cases AppConfig args up t_lookup t_store cache0
                params Hvalid) as Hcases.
  fold h in Hcases.
  destruct (fst (cache_lookup cache0 t_lookup params)) as [[d|]|e].
  - destruct Hcases as (_ & Hnone & _). rewrite Hnone in Hlook. discriminate.
  - destruct Hcases as [Hreq _]. rewrite Hreq in *. by apply Hok.
  - destruct Hcases as (_ & Hnone & _). rewrite Hnone in Hlook. discriminate.
Qed.

Lemma X15_page_requests_are_chained_witness :
  let h := get_airtable_records Config.ProductionConfig (with_cap "150" sample_args)
             three_pages 0 1 SimpleCache.init in
  let pp := {| pp_offset := Some "itr1"; pp_maxRecords := Some 50;
               pp_filterByFormula := None;
               pp_sort := Some ("Date Created", "desc") |} in
  well_shaped {| base_id := baseId sample_args; table_id := tableId sample_args;
                 max_records := Some 150; filter_formula := None |} pp /\
  follows three_pages (upstream_requests h) 1 (pp_offset pp).
Proof.
  intros h pp.
  apply (X15_page_requests_are_chained Config.ProductionConfig
           (with_cap "150" sample_args) three_pages 0 1 SimpleCache.init
           {| base_id := baseId sample_args; table_id := tableId sample_args;
              max_records := Some 150; filter_formula := None |} 1%nat pp).
  - vm_compute. reflexivity.
  - vm_compute. reflexivity.
Defined.

(** X16: the page ceiling is reached silently. Against an upstream whose
    every page can be flattened and carries a cursor, and without a cap,
    the loop sends exactly 100 page requests and then ends as if the
    pages were exhausted: no error is raised for the pages left behind. *)
Theorem X16_ceiling_is_reached_silently (params : validated_params) (up : upstream) :
  always_more up ->
  max_records params = None ->
  exists st,
    Loop.run params up = Loop.Exited st /\
    Loop.page_count st = 100%nat /\
    length (Loop.requests st) = 100%nat.
Proof.
  intros Hmore Hcap.
  destruct (LoopMore.while_loop_always_more params up Loop.max_pages Hmore Hcap
              Loop.init eq_refl eq_refl) as (st & Hloop & Hcount & Hlen).
  exists st. unfold Loop.run. rewrite Hloop. done.
Qed.

Lemma endless_always_more : always_more endless.
Proof.
  intros n pp. eexists _, _. repeat split.
  constructor; [|constructor]. eexists. reflexivity.
Qed.

Lemma X16_ceiling_is_reached_silently_witness :
  exists st,
    Loop.run sample_params endless = Loop.Exited st /\
    Loop.page_count st = 100%nat /\
    length (Loop.requests st) = 100%nat.
Proof.
  apply (X16_ceiling_is_reached_silently sample_params endless).
  - exact endless_always_more.
  - reflexivity.
Defined.

(** X17: when the loop ends normally, the accumulated records are the
    flattened records of the pages received, page after page and in the
    order of each page: none is lost, added or moved before the
    deduplication. *)
Theorem X17_accumulation_keeps_upstream_order (params : validated_params)
    (up : upstream) (st : Loop.state) :
  Loop.run params up = Loop.Exited st ->
  Forall2 (fun record flat => flatten record = Return flat)
          (received up (Loop.requests st)) (Loop.all_records st).
Proof.
  intros Hrun.
  destruct (LoopFacts.run_eq params up) as (r & Hloop & Hr).
  rewrite Hrun in Hr. subst r.
  apply (LoopMore.while_loop_received params up _ _ _ Hloop). constructor.
Qed.

Lemma X17_accumulation_keeps_upstream_order_witness :
  let st := Loop.final (Loop.run sample_params duplicate_pages) in
  Forall2 (fun record flat => flatten record = Return flat)
          (received duplicate_pages (Loop.requests st)) (Loop.all_records st).
Proof.
  intros st.
  apply (X17_accumulation_keeps_upstream_order sample_params duplicate_pages st).
  vm_compute. reflexivity.
Defined.

(** ** Deduplication, further *)

Module DedupMore.
Import Dedup DedupSpec.

(** On hashable records the loop does not raise. *)
Lemma for_each_hashable (all : list (gmap string value)) :
  Forall (fun r => exists k, key r = Return k) all ->
  forall seen unique, exists seen',
    for_each all (seen, unique) = Return (seen', unique ++ first_occurrences seen all).
Proof.
  induction 1 as [|record rest [k Hk] _ IH]; intros seen unique; cbn [for_each].
  - exists seen. by rewrite app_nil_r.
  - rewrite (DedupFacts.step_eq _ _ _ _ Hk). cbn [bind first_occurrences].
    rewrite Hk. destruct (decide (k ∉ seen)).
    + destruct (IH ({[k]} ∪ seen) (unique ++ [record])) as [seen' ->].
      exists seen'. by rewrite <- app_assoc.
    + apply IH.
Qed.

(** Records with pairwise distinct identifiers, none of them seen, are
    all kept. *)
Lemma first_occurrences_distinct (all : list (gmap string value)) :
  forall seen,
    NoDup (key <$> all) ->
    (forall r k, r ∈ all -> key r = Return k -> k ∉ seen) ->
    Forall (fun r => exists k, key r = Return k) all ->
    first_occurrences seen all = all.
Proof.
  induction all as [|record rest IH]; intros seen Hnodup Hfresh Hall; [done|].
  cbn [first_occurrences]. apply Forall_cons in Hall as [[k Hk] Hall]. rewrite Hk.
  rewrite fmap_cons in Hnodup. apply NoDup_cons in Hnodup as [Hnew Hnodup].
  destruct (decide (k ∉ seen)) as [_|Hseen];
    [|exfalso; apply Hseen; apply (Hfresh record k); [by left|done]].
  f_equal. apply IH; [done| |done].
  intros r k' Hin Hk'. apply not_elem_of_union. split.
  - apply not_elem_of_singleton. intros ->. apply Hnew.
    apply list_elem_of_fmap. exists r. split; [congruence|done].
  - apply (Hfresh r k'); [by right|done].
Qed.

Lemma unique_records_distinct (all : list (gmap string value)) :
  NoDup (key <$> all) ->
  Forall (fun r => exists k, key r = Return k) all ->
  unique_records all = Return all.
Proof.
  intros Hnodup Hall. unfold unique_records.
  destruct (for_each_hashable all Hall ∅ []) as [seen' ->]. cbn.
  f_equal. apply first_occurrences_distinct; [done| |done].
  intros r k _ _. apply not_elem_of_empty.
Qed.

End DedupMore.

(** X18: records whose identifiers are hashable and pairwise distinct
    pass the deduplication unchanged, and the response then reports no
    duplicate removed. *)
Theorem X18_distinct_records_are_all_kept (all : list (gmap string value))
    (page_count : nat) :
  NoDup (DedupSpec.key <$> all) ->
  Forall (fun r => exists k, DedupSpec.key r = Return k) all ->
  Dedup.unique_records all = Return all /\
  Response.records (build_response all all page_count) = all /\
  Response.duplicates_removed
    (Response.pagination_info (build_response all all page_count)) = 0.
Proof.
  intros Hnodup Hall. split; [by apply DedupMore.unique_records_distinct|].
  unfold build_response. cbn. rewrite Nat.eqb_refl. cbn. split; [done|lia].
Qed.

Lemma X18_distinct_records_are_all_kept_witness :
  let all := [ ({["id" := VStr "rec1"]} : gmap string value); {["id" := VInt 2]} ] in
  Dedup.unique_records all = Return all /\
  Response.records (build_response all all 1) = all /\
  Response.duplicates_removed (Response.pagination_info (build_response all all 1)) = 0.
Proof.
  intros all.
  apply (X18_distinct_records_are_all_kept all 1).
  - vm_compute. repeat constructor; set_solver.
  - repeat constructor; eexists; vm_compute; reflexivity.
Defined.

(** X19: the deduplication is idempotent: deduplicating its own result
    returns that result. *)
Theorem X19_deduplication_is_idempotent (all unique : list (gmap string value)) :
  Dedup.unique_records all = Return unique ->
  Dedup.unique_records unique = Return unique.
Proof.
  intros Hrun. unfold Dedup.unique_records in Hrun.
  destruct (Dedup.for_each all (∅, [])) as [[seen u]|e] eqn:Hfor; [|discriminate].
  injection Hrun as <-. cbn [snd].
  apply DedupFacts.for_each_first_occurrences in Hfor as [-> _]. cbn [app].
  apply DedupMore.unique_records_distinct.
  - apply DedupFacts.first_occurrences_NoDup.
  - apply Forall_forall. intros r Hin.
    by apply (DedupFacts.first_occurrences_hashable all ∅).
Qed.

Lemma X19_deduplication_is_idempotent_witness :
  let all := [ ({["id" := VStr "rec1"]} : gmap string value);
               {["id" := VBool true]}; {["id" := VInt 1]}; {["id" := VStr "rec1"]} ] in
  let unique := [ ({["id" := VStr "rec1"]} : gmap string value); {["id" := VBool true]} ] in
  Dedup.unique_records unique = Return unique.
Proof.
  intros all unique.
  apply (X19_deduplication_is_idempotent all unique).
  vm_compute. reflexivity.
Defined.

(** X20: in the response of an aggregation the two counts add up:
    [total_records] is the number of records returned,
    [duplicates_removed] is not negative, and together they make the
    number of records accumulated from the upstream. *)
Theorem X20_counts_add_up (AppConfig : Config.t) (args : request_args)
    (up : upstream) (t_lookup t_store : Z) (cache0 : SimpleCache.t Response.data)
    (params : validated_params) (d : Response.data) :
  let h := get_airtable_records AppConfig args up t_lookup t_store cache0 in
  let info := Response.pagination_info d in
  validate_airtable_params AppConfig (baseId args) (tableId args)
    (maxRecords args) (filterByFormula args) = inr params ->
  fst (cache_lookup cache0 t_lookup params) = Return None ->
  fst (response h) = Response.Data d ->
  Response.total_records info = Z.of_nat (length (Response.records d)) /\
  0 <= Response.duplicates_removed info /\
  Response.total_records info + Response.duplicates_removed info
  = Z.of_nat (length (accumulated params up)) /\
  Response.server_side_pagination info = true.
Proof.
  intros h info Hvalid Hmiss Hdata. subst h info.
  unfold cache_lookup, cache_ttl, accumulated in *.
  unfold get_airtable_records in Hdata. rewrite Hvalid in Hdata.
  destruct (SimpleCache.get _ _ _ _ _ _ _) as [o cache1]. cbn [fst] in Hmiss. subst o.
  destruct (Loop.run params up) as [st|r st|e st] eqn:Hrun;
    cbn [response fst] in Hdata; try discriminate.
  - destruct (Dedup.unique_records _) as [unique|e] eqn:Hdedup;
      cbn [response fst] in Hdata; [|discriminate].
    injection Hdata as <-.
    pose proof (DedupFacts.unique_records_first_seen _ _ Hdedup) as [Hsub _].
    pose proof (DedupFacts.build_response_records _ _ (Loop.page_count st) Hsub) as Hrec.
    apply sublist_length in Hsub.
    unfold build_response in *. cbn in *. rewrite Hrec. lia.
  - destruct (HandlerFacts.run_responded _ _ _ _ Hrun) as [text ->]. discriminate.
Qed.

Lemma X20_counts_add_up_witness :
  let h := get_airtable_records Config.ProductionConfig sample_args duplicate_pages
             0 1 SimpleCache.init in
  let info := Response.pagination_info (data_of h) in
  Response.total_records info = Z.of_nat (length (Response.records (data_of h))) /\
  0 <= Response.duplicates_removed info /\
  Response.total_records info + Response.duplicates_removed info
  = Z.of_nat (length (accumulated sample_params duplicate_pages)) /\
  Response.server_side_pagination info = true.
Proof.
  intros h info.
  apply (X20_counts_add_up Config.ProductionConfig sample_args duplicate_pages
           0 1 SimpleCache.init sample_params (data_of h)).
  - vm_compute. reflexivity.
  - vm_compute. reflexivity.
  - vm_compute. reflexivity.
Defined.

(** ** The chat relay's messages *)

Module ChatMore.
Import Chat.

Lemma split_from (messages : list message) :
  forall system_message filtered,
    fold_left split_step messages (system_message, filtered)
    = (match last (filter is_system messages) with
       | Some m => default VNull (m !! "content")
       | None => system_message
       end,
       filtered ++ filter (fun m => ~ is_system m) messages).
Proof.
  induction messages as [|m rest IH]; intros system_message filtered; cbn [fold_left].
  - cbn. by rewrite app_nil_r.
  - unfold split_step at 2. fold (is_system m).
    destruct (decide (is_system m)) as [Hsys|Hnot]; rewrite IH.
    + rewrite (filter_cons_True is_system) by done.
      rewrite (filter_cons_False (fun m => ~ is_system m)) by tauto.
      f_equal. rewrite last_cons. by destruct (last (filter is_system rest)).
    + rewrite (filter_cons_False is_system) by done.
      rewrite (filter_cons_True (fun m => ~ is_system m)) by done.
      by rewrite <- app_assoc.
Qed.

End ChatMore.

(** X21: of the messages of a chat request, those with the role
    ['system'] are taken out and the others forwarded in their order;
    the system text sent along is the content of the last system message
    ([None] when that message has no content or when there is no system
    message): earlier system messages are dropped. *)
Theorem X21_system_messages_are_split_off (messages : list Chat.message) :
  Chat.split_messages messages
  = (match last (filter is_system messages) with
     | Some m => default VNull (m !! "content")
     | None => VNull
     end,
     filter (fun m => ~ is_system m) messages).
Proof. unfold Chat.split_messages. by rewrite ChatMore.split_from. Qed.

(** ** The table mappings *)

Module ConfigMore.
Import Config.

Lemma find_table_Some (tables : list (string * table_info)) (legacy : bool)
    (table_id : string) (c : table_config) :
  find_table tables legacy table_id = Some c ->
  id (info c) = table_id /\ is_legacy c = legacy /\ (type c, info c) ∈ tables.
Proof.
  induction tables as [|[table_type config] rest IH]; simpl; [discriminate|].
  destruct (String.eqb_spec (id config) table_id) as [Heq|Hne].
  - intros [= <-]. cbn. repeat split; [done|by left].
  - intros (? & ? & ?)%IH. repeat split; [done|done|by right].
Qed.

Lemma find_table_None (tables : list (string * table_info)) (legacy : bool)
    (table_id : string) :
  find_table tables legacy table_id = None <->
  table_id ∉ map (fun entry => id (snd entry)) tables.
Proof.
  induction tables as [|[table_type config] rest IH]; simpl.
  - split; [intros _; apply not_elem_of_nil|done].
  - rewrite not_elem_of_cons. cbn.
    destruct (String.eqb_spec (id config) table_id) as [Heq|Hne].
    + split; [discriminate|]. intros [? _]. congruence.
    + rewrite IH. split; [intros ?; split; [congruence|done]|tauto].
Qed.

End ConfigMore.

(** X22: [get_table_config] finds a configuration exactly for the
    identifiers listed by [get_all_table_ids]; the configuration found
    is an entry of the mappings with that identifier, taken from the fresh
    tables when the identifier is among them and flagged as legacy
    otherwise. *)
Theorem X22_table_lookup (table_id : string) :
  (is_Some (Config.get_table_config table_id) <-> table_id ∈ Config.get_all_table_ids) /\
  forall c,
    Config.get_table_config table_id = Some c ->
    Config.id (Config.info c) = table_id /\
    (Config.type c, Config.info c)
      ∈ (if Config.is_legacy c then Config.LEGACY_TABLES else Config.FRESH_TABLES) /\
    (Config.is_legacy c = false <->
     table_id ∈ map (fun entry => Config.id (snd entry)) Config.FRESH_TABLES).
Proof.
  unfold Config.get_table_config, Config.get_all_table_ids.
  pose proof (ConfigMore.find_table_None Config.FRESH_TABLES false table_id) as Hfresh.
  pose proof (ConfigMore.find_table_None Config.LEGACY_TABLES true table_id) as Hlegacy.
  rewrite elem_of_app.
  destruct (Config.find_table Config.FRESH_TABLES false table_id) as [c|] eqn:Hc.
  - assert (table_id ∈ map (fun entry => Config.id (snd entry)) Config.FRESH_TABLES)
      as Hin.
    { destruct (decide (table_id
                        ∈ map (fun entry => Config.id (snd entry)) Config.FRESH_TABLES));
        [done|]. apply Hfresh in n. discriminate. }
    split; [split; eauto|].
    intros c' [= <-].
    apply ConfigMore.find_table_Some in Hc as (Hid & Hleg & Hentry).
    rewrite Hleg. split; [done|]. split; [done|]. split; done.
  - assert (table_id ∉ map (fun entry => Config.id (snd entry)) Config.FRESH_TABLES)
      as Hout by (by apply Hfresh).
    destruct (Config.find_table Config.LEGACY_TABLES true table_id) as [c|] eqn:Hc'.
    + assert (table_id ∈ map (fun entry => Config.id (snd entry)) Config.LEGACY_TABLES)
        as Hin.
      { destruct (decide (table_id
                          ∈ map (fun entry => Config.id (snd entry)) Config.LEGACY_TABLES));
          [done|]. apply Hlegacy in n. discriminate. }
      split; [split; eauto|].
      intros c' [= <-].
      apply ConfigMore.find_table_Some in Hc' as (Hid & Hleg & Hentry).
      rewrite Hleg. split; [done|]. split; [done|]. split; [discriminate|done].
    + assert (table_id ∉ map (fun entry => Config.id (snd entry)) Config.LEGACY_TABLES)
        as Hout' by (by apply Hlegacy).
      split; [|discriminate].
      split; [intros [? [=]]|intros [?|?]; done].
Qed.

(** X23: whatever the deployment profile selected by [FLASK_ENV], a cap
    that passes validation lies between 1 and 10000. *)
Theorem X23_validated_cap_under_any_profile (flask_env : option string)
    (b t m f : option string) (params : validated_params) (cap : Z) :
  validate_airtable_params (Config.get_config flask_env) b t m f = inr params ->
  max_records params = Some cap ->
  1 <= cap <= 10000.
Proof.
  intros Hvalid Hcap.
  pose proof (ValidationFacts.validated_cap _ _ _ _ _ _ _ Hvalid Hcap) as Hbound.
  assert (Config.MAX_TOTAL_RECORDS (Config.get_config flask_env) <= 10000) as Hmax.
  { unfold Config.get_config.
    destruct (String.eqb _ "development"); [cbn; lia|].
    destruct (String.eqb _ "testing"); cbn; lia. }
  lia.
Qed.

Lemma X23_validated_cap_under_any_profile_witness : 1 <= 100 <= 10000.
Proof.
  apply (X23_validated_cap_under_any_profile (Some "Testing")
           (baseId sample_args) (tableId sample_args) (Some "100") None
           {| base_id := baseId sample_args; table_id := tableId sample_args;
              max_records := Some 100; filter_formula := None |} 100).
  - vm_compute. reflexivity.
  - reflexivity.
Defined.
